(** * logrus formatters: a shallow embedding of [text_formatter.go] and of
    the JSON formatter, with the properties of their specification.

    Go strings and byte slices are sequences of 8-bit bytes: both are
    modelled by [string] (a sequence of [ascii], one per byte).  Maps
    ([Fields], [FieldMap]) are [gmap string _].  What the formatters take
    from the Go runtime and from files of the package that are not part of
    this development (clock rendering, terminal probe, JSON encoder, ...) is
    gathered in the class [GoEnv]. *)

From Stdlib Require Import ZArith Ascii String.
From stdpp Require Import base strings pretty gmap sorting list.

Local Open Scope string_scope.
Local Open Scope Z_scope.

(** ** Bytes and text *)

Module Bytes.

Definition ESC : string := String "027"%char "".
Definition NL : string := String "010"%char "".
Definition DQUOTE : string := String "034"%char "".

Fixpoint replicate_byte (n : nat) (c : ascii) : string :=
  match n with
  | O => ""
  | S n' => String c (replicate_byte n' c)
  end.

(** [contains needle hay]: [needle] occurs in [hay] as a contiguous run of
    bytes. *)
Fixpoint contains (needle hay : string) : bool :=
  String.prefix needle hay ||
  match hay with
  | "" => false
  | String _ rest => contains needle rest
  end.

(** [has_byte c s]: the byte [c] occurs in [s]; a text is escape-free when
    the escape byte does not occur in it. *)
Fixpoint has_byte (c : ascii) (s : string) : bool :=
  match s with
  | "" => false
  | String c' rest => (c =? c')%char || has_byte c rest
  end.

Definition escape_free (s : string) : Prop := has_byte "027" s = false.

End Bytes.

Import Bytes.

(** ** The event data model *)

(** Go's [error] interface, observed through its [Error()] method. *)
Inductive error := errorString (msg : string).

Definition Error (e : error) : string := let 'errorString msg := e in msg.

(** [interface{}] values attached to an event: text, an error, or another
    printable value. *)
Inductive Value :=
  | VString (s : string)
  | VError (e : error)
  | VInt (n : Z)
  | VBool (b : bool)
  | VNil.

Global Instance error_eq_dec : EqDecision error.
Proof. solve_decision. Defined.

Global Instance Value_eq_dec : EqDecision Value.
Proof. solve_decision. Defined.

(** [type Fields map[string]interface{}] *)
Abbreviation Fields := (gmap string Value).

(** Modelled from the spec: the severity enum [Level] of the package
    (declared outside the two formatter files), "debug < info < warning <
    error < fatal < panic", listed as the package orders its constants. *)
Inductive Level :=
  | PanicLevel | FatalLevel | ErrorLevel | WarnLevel | InfoLevel | DebugLevel.

(** Modelled from the spec: [Level.String], "the level's text
    representation"; the spec's scenarios show [info] and [error]. *)
Definition Level_String (l : Level) : string :=
  match l with
  | DebugLevel => "debug"
  | InfoLevel => "info"
  | WarnLevel => "warning"
  | ErrorLevel => "error"
  | FatalLevel => "fatal"
  | PanicLevel => "panic"
  end.

(** [time.Time] as a count of nanoseconds on the time line, and
    [time.Duration] as a signed 64-bit count of nanoseconds. *)
Definition Time := Z.

Definition minDuration : Z := - 2 ^ 63.
Definition maxDuration : Z := 2 ^ 63 - 1.
Definition Second : Z := 1000000000.

(** [t.Sub(u)]: the difference, saturated to the range of a Duration. *)
Definition Time_Sub (t u : Time) : Z :=
  let d := t - u in
  if d <? minDuration then minDuration
  else if maxDuration <? d then maxDuration
  else d.

(** Modelled from the spec: the log event [Entry] (declared outside the two
    formatter files), with the fields the formatters read.  [Buffer] is the
    optional [*bytes.Buffer] of the caller: [None] for nil, [Some b] for a
    buffer holding the bytes [b]. *)
Record Entry := mkEntry {
  Data : Fields;
  Time_ : Time;
  Level_ : Level;
  Message : string;
  Buffer : option string;
}.

(** An [io.Writer] handed to [Build]. *)
Inductive Writer := OsFile (fd : Z) | OtherWriter.

(** What the formatters use of the Go runtime and of the rest of the
    package. *)
Class GoEnv := {
  (** [runtime.GOOS] *)
  GOOS : string;
  (** the terminal probe [IsTerminal] *)
  IsTerminal : Writer → bool;
  (** [t.Format(layout)] *)
  Time_Format : Time → string → string;
  (** [utf8.RuneCountInString], the width [fmt] pads to *)
  RuneCountInString : string → nat;
  (** the package constant [DefaultTimestampFormat] *)
  DefaultTimestampFormat : string;
  (** [json.Marshal] on a [Fields] map: the encoding ([inl]), or the cause
      of the failure ([inr]) *)
  json_Marshal : Fields → string + error;
}.

(** ** Field-clash resolution *)

(** Modelled from the spec: [prefixFieldClashes] (section 4.1): an attribute
    whose key is exactly a reserved name is renamed by prefixing the key with
    "fields.", keeping its value; the write under the prefixed key wins over
    an attribute already there.  The formatters call it with the mapping
    alone, so the reserved names are the literal ones. *)
Definition prefix_clash (name : string) (data : Fields) : Fields :=
  match data !! name with
  | Some v => <["fields." +:+ name := v]> (delete name data)
  | None => data
  end.

Definition prefixFieldClashes (data : Fields) : Fields :=
  prefix_clash "level" (prefix_clash "msg" (prefix_clash "time" data)).

(** [for k := range m]: the runtime yields every key once, in an order of
    its choice.  [range_order m ks] says [ks] is such an order. *)
Definition range_order (m : Fields) (ks : list string) : Prop :=
  NoDup ks ∧ ∀ k, k ∈ ks ↔ is_Some (m !! k).

(** [m[k]] on a map of interfaces: nil when the key is absent. *)
Definition index (m : Fields) (k : string) : Value := default VNil (m !! k).

(** [sort.Strings]: the ascending rearrangement for Go's string order,
    which compares byte by byte. *)
Definition sort_Strings (keys : list string) : list string :=
  merge_sort String.le keys.

(** ** Package state *)

(** The package-level variables: [baseTimestamp], assigned once by the
    package's [init] from the clock. *)
Record Globals := mkGlobals { baseTimestamp : Time }.

(** [func init()], run when the program starts, at clock reading [now]. *)
Definition init (now : Time) : Globals := {| baseTimestamp := now |}.

(** ** The text formatter ([text_formatter.go]) *)

Definition nocolor : Z := 0.
Definition red : Z := 31.
Definition green : Z := 32.
Definition yellow : Z := 33.
Definition blue : Z := 34.
Definition gray : Z := 37.

Record TextFormatter := mkTextFormatter {
  ForceColors : bool;
  DisableColors : bool;
  DisableTimestamp : bool;
  FullTimestamp : bool;
  TimestampFormat : string;
  DisableSorting : bool;
  QuoteEmptyFields : bool;
  QuoteCharacter : string;
}.

Record textFormatter := mktextFormatter {
  settings : TextFormatter;
  isColored : bool;
}.

(** [Build] assigns the defaults into the factory it is called on, then
    copies it into the formatter: the result is the factory after the call,
    the formatter, and the error (always nil). *)
Definition TextFormatter_Build `{GoEnv} (factory : TextFormatter)
    (out : Writer) (minimumLevel : Level)
  : TextFormatter * (textFormatter * option error) :=
  let factory :=
    if negb (DisableTimestamp factory) && (TimestampFormat factory =? "")%string
    then mkTextFormatter (ForceColors factory) (DisableColors factory)
           (DisableTimestamp factory) (FullTimestamp factory)
           DefaultTimestampFormat (DisableSorting factory)
           (QuoteEmptyFields factory) (QuoteCharacter factory)
    else factory in
  let factory :=
    if (QuoteCharacter factory =? "")%string
    then mkTextFormatter (ForceColors factory) (DisableColors factory)
           (DisableTimestamp factory) (FullTimestamp factory)
           (TimestampFormat factory) (DisableSorting factory)
           (QuoteEmptyFields factory) DQUOTE
    else factory in
  let isColorTerminal := IsTerminal out && negb (GOOS =? "windows")%string in
  (factory,
   ({| settings := factory;
       isColored := (ForceColors factory || isColorTerminal)
                    && negb (DisableColors factory) |},
    None)).

(** The characters [needsQuoting] lets through.  The source ranges over the
    runes of the text; every rune it lets through is a single byte below
    128, and a byte from 128 up decodes (alone or with its neighbours) to a
    rune from 128 up, so the test is the same byte by byte. *)
Definition plain_char (ch : ascii) : bool :=
  (("a" <=? ch) && (ch <=? "z"))%char ||
  (("A" <=? ch) && (ch <=? "Z"))%char ||
  (("0" <=? ch) && (ch <=? "9"))%char ||
  (ch =? "-")%char || (ch =? ".")%char.

(** The loop of [needsQuoting]: true at the first character not let
    through. *)
Fixpoint has_other_char (text : string) : bool :=
  match text with
  | "" => false
  | String ch rest => if negb (plain_char ch) then true else has_other_char rest
  end.

Definition needsQuoting (f : textFormatter) (text : string) : bool :=
  if QuoteEmptyFields (settings f) && (String.length text =? 0)%nat then true
  else has_other_char text.

(** [fmt.Fprint] of one value: its default printable form. *)
Definition fmt_Sprint (v : Value) : string :=
  match v with
  | VString s => s
  | VError e => Error e
  | VInt n => pretty n
  | VBool b => if b then "true" else "false"
  | VNil => "<nil>"
  end.

(** The verb [%04d]: the decimal digits, with zeros on the left up to four
    characters, a minus sign counting as one of them. *)
Definition fmt_04d (n : Z) : string :=
  let digits := pretty (Z.abs n) in
  if n <? 0
  then "-" +:+ replicate_byte (3 - String.length digits) "0" +:+ digits
  else replicate_byte (4 - String.length digits) "0" +:+ digits.

(** The verb [%-44s]: the text, with spaces on the right up to 44 runes. *)
Definition fmt_pad44 `{GoEnv} (s : string) : string :=
  s +:+ replicate_byte (44 - RuneCountInString s) " ".

(** [strings.ToUpper] on the bytes of an ASCII text. *)
Definition upper_char (ch : ascii) : ascii :=
  if (("a" <=? ch) && (ch <=? "z"))%char
  then ascii_of_nat (nat_of_ascii ch - 32)
  else ch.

Fixpoint strings_ToUpper (s : string) : string :=
  match s with
  | "" => ""
  | String ch rest => String (upper_char ch) (strings_ToUpper rest)
  end.

(** The buffer is threaded through: each writer takes the bytes held so far
    and returns them with what it appends. *)
Definition appendValue (f : textFormatter) (b : string) (value : Value)
  : string :=
  match value with
  | VString value =>
      if negb (needsQuoting f value) then b +:+ value
      else b +:+ QuoteCharacter (settings f) +:+ value
             +:+ QuoteCharacter (settings f)
  | VError value =>
      let errmsg := Error value in
      if negb (needsQuoting f errmsg) then b +:+ errmsg
      else b +:+ QuoteCharacter (settings f) +:+ errmsg
             +:+ QuoteCharacter (settings f)
  | _ => b +:+ fmt_Sprint value
  end.

Definition appendKeyValue (f : textFormatter) (b : string) (key : string)
    (value : Value) : string :=
  let b := b +:+ key in
  let b := b +:+ "=" in
  let b := appendValue f b value in
  b +:+ " ".

Definition levelColor_of (l : Level) : Z :=
  match l with
  | DebugLevel => gray
  | WarnLevel => yellow
  | ErrorLevel | FatalLevel | PanicLevel => red
  | _ => blue
  end.

Definition printColored `{GoEnv} (g : Globals) (f : textFormatter)
    (b : string) (entry : Entry) (keys : list string) : string :=
  let levelColor := levelColor_of (Level_ entry) in
  let levelText :=
    String.substring 0 4 (strings_ToUpper (Level_String (Level_ entry))) in
  let b :=
    if DisableTimestamp (settings f) then
      b +:+ ESC +:+ "[" +:+ pretty levelColor +:+ "m" +:+ levelText
        +:+ ESC +:+ "[0m " +:+ fmt_pad44 (Message entry) +:+ " "
    else if negb (FullTimestamp (settings f)) then
      b +:+ ESC +:+ "[" +:+ pretty levelColor +:+ "m" +:+ levelText
        +:+ ESC +:+ "[0m["
        +:+ fmt_04d (Z.quot (Time_Sub (Time_ entry) (baseTimestamp g)) Second)
        +:+ "] " +:+ fmt_pad44 (Message entry) +:+ " "
    else
      b +:+ ESC +:+ "[" +:+ pretty levelColor +:+ "m" +:+ levelText
        +:+ ESC +:+ "[0m["
        +:+ Time_Format (Time_ entry) (TimestampFormat (settings f))
        +:+ "] " +:+ fmt_pad44 (Message entry) +:+ " " in
  fold_left
    (fun b k =>
       let v := index (Data entry) k in
       let b := b +:+ " " +:+ ESC +:+ "[" +:+ pretty levelColor +:+ "m" +:+ k
                  +:+ ESC +:+ "[0m=" in
       appendValue f b v)
    keys b.

(** The keys [Format] walks: the order [ks] in which the runtime ranged
    over the attributes, sorted unless sorting is disabled. *)
Definition Format_keys (f : textFormatter) (ks : list string) : list string :=
  if negb (DisableSorting (settings f)) then sort_Strings ks else ks.

(** [textFormatter.Format].  [ks] is the order in which [range entry.Data]
    yields the keys.  The result is the entry after the call (its attributes
    clash-resolved in place, its buffer grown), the bytes and the error
    (always nil). *)
Definition textFormatter_Format `{GoEnv} (g : Globals) (f : textFormatter)
    (entry : Entry) (ks : list string) : Entry * (string * option error) :=
  let data := prefixFieldClashes (Data entry) in
  let entry' :=
    mkEntry data (Time_ entry) (Level_ entry) (Message entry) (Buffer entry) in
  let keys := Format_keys f ks in
  let b := match Buffer entry with Some b => b | None => "" end in
  let b :=
    if isColored f then printColored g f b entry' keys
    else
      let b :=
        if negb (DisableTimestamp (settings f))
        then appendKeyValue f b "time"
               (VString (Time_Format (Time_ entry)
                                     (TimestampFormat (settings f))))
        else b in
      let b := appendKeyValue f b "level"
                 (VString (Level_String (Level_ entry))) in
      let b :=
        if negb (Message entry =? "")%string
        then appendKeyValue f b "msg" (VString (Message entry))
        else b in
      fold_left (fun b key => appendKeyValue f b key (index data key)) keys b
  in
  let b := b +:+ NL in
  (mkEntry data (Time_ entry) (Level_ entry) (Message entry)
     (match Buffer entry with Some _ => Some b | None => None end),
   (b, None)).

(** The bytes a call returns. *)
Definition Format_bytes `{GoEnv} (g : Globals) (f : textFormatter)
    (entry : Entry) (ks : list string) : string :=
  (textFormatter_Format g f entry ks).2.1.

(** ** The JSON formatter *)

Module JSON.

(** [type FieldMap map[fieldKey]string], [fieldKey] being a string type. *)
Abbreviation FieldMap := (gmap string string).

Definition FieldKeyMsg : string := "msg".
Definition FieldKeyLevel : string := "level".
Definition FieldKeyTime : string := "time".

Definition resolve (f : FieldMap) (key : string) : string :=
  match f !! key with
  | Some k => k
  | None => key
  end.

Record JSONFormatter := mkJSONFormatter {
  TimestampFormat : string;
  DisableTimestamp : bool;
  FieldMap_ : FieldMap;
}.

Record jsonFormatter := mkjsonFormatter {
  timestampFormat : string;
  keyTime : string;
  keyLevel : string;
  keyMsg : string;
}.

Definition Build `{GoEnv} (factory : JSONFormatter) (out : Writer)
    (minimumLevel : Level) : jsonFormatter * option error :=
  let fmt :=
    {| timestampFormat := TimestampFormat factory;
       keyTime := resolve (FieldMap_ factory) FieldKeyTime;
       keyLevel := resolve (FieldMap_ factory) FieldKeyLevel;
       keyMsg := resolve (FieldMap_ factory) FieldKeyMsg |} in
  let fmt :=
    if DisableTimestamp factory
    then mkjsonFormatter (timestampFormat fmt) "" (keyLevel fmt) (keyMsg fmt)
    else if (timestampFormat fmt =? "")%string
    then mkjsonFormatter DefaultTimestampFormat (keyTime fmt) (keyLevel fmt)
           (keyMsg fmt)
    else fmt in
  (fmt, None).

(** The type switch of the copy loop: an error is stored as its text. *)
Definition error_text (v : Value) : Value :=
  match v with
  | VError v => VString (Error v)
  | _ => v
  end.

(** The mapping [Format] assembles and hands to [json.Marshal]. *)
Definition Format_data `{GoEnv} (f : jsonFormatter) (entry : Entry) : Fields :=
  let data : Fields := error_text <$> Data entry in
  let data := prefixFieldClashes data in
  let data :=
    if negb (keyTime f =? "")%string
    then <[keyTime f := VString (Time_Format (Time_ entry) (timestampFormat f))]>
           data
    else data in
  let data := <[keyMsg f := VString (Message entry)]> data in
  <[keyLevel f := VString (Level_String (Level_ entry))]> data.

(** [fmt.Errorf("Failed to marshal fields to JSON, %v", err)] *)
Definition marshal_failure (err : error) : error :=
  errorString ("Failed to marshal fields to JSON, " +:+ Error err).

(** [jsonFormatter.Format]: the pair [([]byte, error)], [None] for nil. *)
Definition Format `{GoEnv} (f : jsonFormatter) (entry : Entry)
  : option string * option error :=
  match json_Marshal (Format_data f entry) with
  | inr err => (None, Some (marshal_failure err))
  | inl serialized => (Some (serialized +:+ NL), None)
  end.

End JSON.

(** ** A concrete environment for the examples

    A Linux process whose file descriptor 1 is a terminal, a clock
    rendering that prints the instant of the specification's examples,
    texts of one byte per rune, and the JSON encoder restricted to two
    mappings (that of the specification's machine scenario, and a level and
    a message alone; anything else is rejected), with the matching
    decoder. *)

Module Example.

Definition stamp : string := "2024-01-02T15:04:05Z".

Definition scenario_data : Fields :=
  <["err" := VString "disk full"]>
    (<["level" := VString "error"]>
       (<["msg" := VString ""]> (<["time" := VString stamp]> ∅))).

Definition quoted (s : string) : string := DQUOTE +:+ s +:+ DQUOTE.

Definition scenario_json : string :=
  "{" +:+ quoted "err" +:+ ":" +:+ quoted "disk full" +:+ ","
      +:+ quoted "level" +:+ ":" +:+ quoted "error" +:+ ","
      +:+ quoted "msg" +:+ ":" +:+ quoted "" +:+ ","
      +:+ quoted "time" +:+ ":" +:+ quoted stamp +:+ "}".

Definition untimed_data : Fields :=
  <["level" := VString "info"]> (<["msg" := VString "hello"]> ∅).

Definition untimed_json : string :=
  "{" +:+ quoted "level" +:+ ":" +:+ quoted "info" +:+ ","
      +:+ quoted "msg" +:+ ":" +:+ quoted "hello" +:+ "}".

Definition Marshal (m : Fields) : string + error :=
  if decide (m = scenario_data) then inl scenario_json
  else if decide (m = untimed_data) then inl untimed_json
  else inr (errorString "json: unsupported value").


Definition env : GoEnv :=
  {| GOOS := "linux";
     IsTerminal := fun w => match w with OsFile 1 => true | _ => false end;
     Time_Format := fun _ _ => stamp;
     RuneCountInString := String.length;
     DefaultTimestampFormat := "2006-01-02T15:04:05Z07:00";
     json_Marshal := Marshal |}.

(** Formatters built from the zero options: on a pipe (plain), on the
    terminal (colored), and on a pipe with empty fields quoted. *)
Definition options : TextFormatter :=
  mkTextFormatter false false false false "" false false "".

Definition plain : textFormatter :=
  (@TextFormatter_Build env options OtherWriter InfoLevel).2.1.

Definition colored : textFormatter :=
  (@TextFormatter_Build env options (OsFile 1) InfoLevel).2.1.

Definition quote_empty : textFormatter :=
  (@TextFormatter_Build env
     (mkTextFormatter false false false false "" false true "")
     OtherWriter InfoLevel).2.1.

End Example.

(** ** The layout of a formatted line, as the specification words it *)

(** The text written for one value, and for one [key=value] pair of the
    plain layout (a space follows every pair). *)
Definition value_text (f : textFormatter) (v : Value) : string :=
  appendValue f "" v.

Fixpoint pairs_text (f : textFormatter) (data : Fields) (keys : list string)
  : string :=
  match keys with
  | [] => ""
  | k :: keys =>
      k +:+ "=" +:+ value_text f (index data k) +:+ " "
        +:+ pairs_text f data keys
  end.

(** The colored layout: the level tag wrapped in its color, and for each
    attribute a space, the key wrapped in the color, [=] and the value. *)
Definition level_tag (l : Level) : string :=
  ESC +:+ "[" +:+ pretty (levelColor_of l) +:+ "m"
      +:+ String.substring 0 4 (strings_ToUpper (Level_String l))
      +:+ ESC +:+ "[0m".

Fixpoint colored_pairs_text (f : textFormatter) (l : Level) (data : Fields)
    (keys : list string) : string :=
  match keys with
  | [] => ""
  | k :: keys =>
      " " +:+ ESC +:+ "[" +:+ pretty (levelColor_of l) +:+ "m" +:+ k
          +:+ ESC +:+ "[0m=" +:+ value_text f (index data k)
          +:+ colored_pairs_text f l data keys
  end.

(** Whole seconds from [since] to [t], as [printColored] computes them. *)
Definition elapsed_seconds (since t : Time) : Z :=
  Z.quot (Time_Sub t since) Second.

(** The whole line of each layout when the attributes are written for the
    keys [keys], in that order: what the buffer held, the reserved fields
    (or the level tag, the stamp and the padded message), the attribute
    pairs, the newline. *)
Definition plain_line `{GoEnv} (f : textFormatter) (entry : Entry)
    (keys : list string) : string :=
  default "" (Buffer entry)
    +:+ (if DisableTimestamp (settings f) then ""
         else "time=" +:+ value_text f
                (VString (Time_Format (Time_ entry)
                            (TimestampFormat (settings f)))) +:+ " ")
    +:+ "level=" +:+ value_text f (VString (Level_String (Level_ entry)))
    +:+ " "
    +:+ (if (Message entry =? "")%string then ""
         else "msg=" +:+ value_text f (VString (Message entry)) +:+ " ")
    +:+ pairs_text f (prefixFieldClashes (Data entry)) keys
    +:+ NL.

Definition colored_line `{GoEnv} (g : Globals) (f : textFormatter)
    (entry : Entry) (keys : list string) : string :=
  default "" (Buffer entry)
    +:+ level_tag (Level_ entry)
    +:+ (if DisableTimestamp (settings f) then " "
         else if FullTimestamp (settings f)
         then "[" +:+ Time_Format (Time_ entry) (TimestampFormat (settings f))
                +:+ "] "
         else "[" +:+ fmt_04d (elapsed_seconds (baseTimestamp g) (Time_ entry))
                +:+ "] ")
    +:+ fmt_pad44 (Message entry) +:+ " "
    +:+ colored_pairs_text f (Level_ entry) (prefixFieldClashes (Data entry))
          keys
    +:+ NL.

(** The set of characters the specification lets through unquoted, by
    byte value. *)
Definition in_plain_set (ch : ascii) : Prop :=
  let n := nat_of_ascii ch in
  (97 ≤ n ≤ 122)%nat ∨ (65 ≤ n ≤ 90)%nat ∨ (48 ≤ n ≤ 57)%nat
  ∨ n = 45%nat ∨ n = 46%nat.

Global Instance in_plain_set_dec (ch : ascii) : Decision (in_plain_set ch).
Proof. unfold in_plain_set. apply _. Defined.

Fixpoint only_plain (text : string) : Prop :=
  match text with
  | "" => True
  | String ch rest => in_plain_set ch ∧ only_plain rest
  end.

(** The reserved names, and the key an attribute ends under after clash
    resolution. *)
Definition reserved (k : string) : Prop :=
  k = "time" ∨ k = "msg" ∨ k = "level".

Global Instance reserved_dec (k : string) : Decision (reserved k).
Proof. unfold reserved. apply _. Defined.


(** ** More events and formatters for the examples *)

(** The event with its buffer field replaced. *)
Definition with_Buffer (entry : Entry) (b : option string) : Entry :=
  mkEntry (Data entry) (Time_ entry) (Level_ entry) (Message entry) b.

Module Sample.

(** Text formatters built with timestamps disabled (on a pipe and on the
    terminal) and with full timestamps on the terminal. *)
Definition untimed_options : TextFormatter :=
  mkTextFormatter false false true false "" false false "".

Definition untimed_plain : textFormatter :=
  (@TextFormatter_Build Example.env untimed_options OtherWriter InfoLevel).2.1.

Definition untimed_colored : textFormatter :=
  (@TextFormatter_Build Example.env untimed_options (OsFile 1) InfoLevel).2.1.

Definition full_colored : textFormatter :=
  (@TextFormatter_Build Example.env
     (mkTextFormatter false false false true "" false false "")
     (OsFile 1) InfoLevel).2.1.

End Sample.

(** ** Facts on byte strings *)

Lemma app_cons (c : ascii) (s t : string) :
  String c s +:+ t = String c (s +:+ t).
Proof. reflexivity. Qed.

Lemma app_nil_l (s : string) : "" +:+ s = s.
Proof. reflexivity. Qed.

Lemma app_nil_r (s : string) : s +:+ "" = s.
Proof. induction s as [|c s IH]; [done|]. by rewrite app_cons, IH. Qed.

Lemma app_assoc (s t u : string) : (s +:+ t) +:+ u = s +:+ t +:+ u.
Proof. induction s as [|c s IH]; [done|]. by rewrite !app_cons, IH. Qed.

Lemma app_length (s t : string) :
  String.length (s +:+ t) = (String.length s + String.length t)%nat.
Proof.
  induction s as [|c s IH]; [done|]. rewrite app_cons. simpl. by rewrite IH.
Qed.

Lemma prefix_app (s t : string) : String.prefix s (s +:+ t) = true.
Proof.
  induction s as [|c s IH]; [by destruct t|].
  rewrite app_cons. simpl. by destruct (ascii_dec c c).
Qed.

Lemma replicate_byte_length n c : String.length (replicate_byte n c) = n.
Proof. induction n; simpl; congruence. Qed.

Lemma prefix_cons_ne (c c' : ascii) (s t : string) :
  c ≠ c' → String.prefix (String c s) (String c' t) = false.
Proof. intros Hne. simpl. by destruct (ascii_dec c c'). Qed.

(** ** Frame facts: every writer only appends *)

Lemma appendValue_frame (f : textFormatter) (b : string) (v : Value) :
  appendValue f b v = b +:+ value_text f v.
Proof.
  unfold value_text, appendValue.
  destruct v; repeat case_match; by rewrite ?app_nil_l, ?app_assoc.
Qed.

Lemma appendKeyValue_frame (f : textFormatter) (b key : string) (v : Value) :
  appendKeyValue f b key v = b +:+ key +:+ "=" +:+ value_text f v +:+ " ".
Proof.
  unfold appendKeyValue. by rewrite appendValue_frame, !app_assoc.
Qed.

Lemma plain_loop_frame (f : textFormatter) (data : Fields)
    (keys : list string) (b : string) :
  fold_left (λ b key, appendKeyValue f b key (index data key)) keys b
  = b +:+ pairs_text f data keys.
Proof.
  revert b. induction keys as [|k keys IH]; intros b; simpl.
  - by rewrite app_nil_r.
  - by rewrite IH, appendKeyValue_frame, !app_assoc.
Qed.

Lemma colored_loop_frame (f : textFormatter) (l : Level) (data : Fields)
    (keys : list string) (b : string) :
  fold_left
    (λ b k,
       appendValue f
         (b +:+ " " +:+ ESC +:+ "[" +:+ pretty (levelColor_of l) +:+ "m" +:+ k
            +:+ ESC +:+ "[0m=")
         (index data k))
    keys b
  = b +:+ colored_pairs_text f l data keys.
Proof.
  revert b. induction keys as [|k keys IH]; intros b; simpl.
  - by rewrite app_nil_r.
  - by rewrite IH, appendValue_frame, !app_assoc.
Qed.

(** The bytes of the plain layout. *)
Lemma Format_bytes_plain `{GoEnv} (g : Globals) (f : textFormatter)
    (entry : Entry) (ks : list string) :
  isColored f = false →
  Format_bytes g f entry ks
  = default "" (Buffer entry)
    +:+ (if DisableTimestamp (settings f) then ""
         else "time=" +:+ value_text f
                (VString (Time_Format (Time_ entry)
                            (TimestampFormat (settings f)))) +:+ " ")
    +:+ "level=" +:+ value_text f (VString (Level_String (Level_ entry)))
    +:+ " "
    +:+ (if (Message entry =? "")%string then ""
         else "msg=" +:+ value_text f (VString (Message entry)) +:+ " ")
    +:+ pairs_text f (prefixFieldClashes (Data entry)) (Format_keys f ks)
    +:+ NL.
Proof.
  intros Hplain. unfold Format_bytes, textFormatter_Format. simpl.
  rewrite Hplain, plain_loop_frame.
  destruct (Buffer entry) as [b|], (DisableTimestamp (settings f)),
    (Message entry =? "")%string; simpl;
    rewrite ?appendKeyValue_frame, ?app_assoc; reflexivity.
Qed.

(** The bytes of the colored layout. *)
Lemma Format_bytes_colored `{GoEnv} (g : Globals) (f : textFormatter)
    (entry : Entry) (ks : list string) :
  isColored f = true →
  Format_bytes g f entry ks
  = default "" (Buffer entry)
    +:+ level_tag (Level_ entry)
    +:+ (if DisableTimestamp (settings f) then " "
         else if FullTimestamp (settings f)
         then "[" +:+ Time_Format (Time_ entry) (TimestampFormat (settings f))
                +:+ "] "
         else "[" +:+ fmt_04d (elapsed_seconds (baseTimestamp g) (Time_ entry))
                +:+ "] ")
    +:+ fmt_pad44 (Message entry) +:+ " "
    +:+ colored_pairs_text f (Level_ entry) (prefixFieldClashes (Data entry))
          (Format_keys f ks)
    +:+ NL.
Proof.
  intros Hcol. unfold Format_bytes, textFormatter_Format. simpl.
  rewrite Hcol. unfold printColored. simpl.
  rewrite colored_loop_frame. unfold level_tag, elapsed_seconds.
  destruct (Buffer entry) as [b|], (DisableTimestamp (settings f)),
    (FullTimestamp (settings f)); simpl;
    rewrite ?app_assoc; reflexivity.
Qed.

(** ** The plain layout: level and message (claim C1) *)

Lemma needsQuoting_Level_String (f : textFormatter) (l : Level) :
  needsQuoting f (Level_String l) = false.
Proof.
  unfold needsQuoting.
  destruct l, (QuoteEmptyFields (settings f)); reflexivity.
Qed.

Lemma value_text_Level_String (f : textFormatter) (l : Level) :
  value_text f (VString (Level_String l)) = Level_String l.
Proof.
  unfold value_text, appendValue. by rewrite needsQuoting_Level_String.
Qed.

(** C1, as stated, fails: with an empty message the plain line of a
    formatter with colors off carries no msg key at all. *)
Lemma C1_no_msg_field_for_empty_message :
  @Format_bytes Example.env (init 0) Example.plain
     (mkEntry ∅ 0 InfoLevel "" None) []
  = "time=" +:+ DQUOTE +:+ "2024-01-02T15:04:05Z" +:+ DQUOTE
      +:+ " level=info " +:+ NL
  ∧ contains "msg="
      (@Format_bytes Example.env (init 0) Example.plain
         (mkEntry ∅ 0 InfoLevel "" None) []) = false.
Proof. split; vm_compute; reflexivity. Qed.

(** C1, amended: for every event formatted with colors disabled, the line
    contains the level field, followed by the msg field when the message is
    not empty; when the message is empty no msg field is written and the
    attributes follow the level field directly. *)
Theorem C1_level_always_msg_unless_empty `{GoEnv} (g : Globals)
    (f : textFormatter) (entry : Entry) (ks : list string) :
  isColored f = false →
  ∃ before after,
    Format_bytes g f entry ks
    = before +:+ "level=" +:+ Level_String (Level_ entry) +:+ " " +:+ after
    ∧ (Message entry ≠ "" →
       ∃ rest, after = "msg=" +:+ value_text f (VString (Message entry))
                         +:+ " " +:+ rest)
    ∧ (Message entry = "" →
       after = pairs_text f (prefixFieldClashes (Data entry))
                 (Format_keys f ks) +:+ NL).
Proof.
  intros Hplain.
  exists (default "" (Buffer entry)
          +:+ (if DisableTimestamp (settings f) then ""
               else "time=" +:+ value_text f
                      (VString (Time_Format (Time_ entry)
                                  (TimestampFormat (settings f)))) +:+ " ")),
    ((if (Message entry =? "")%string then ""
      else "msg=" +:+ value_text f (VString (Message entry)) +:+ " ")
     +:+ pairs_text f (prefixFieldClashes (Data entry)) (Format_keys f ks)
     +:+ NL).
  split; [|split].
  - rewrite (Format_bytes_plain g f entry ks Hplain).
    rewrite value_text_Level_String, !app_assoc. reflexivity.
  - intros Hmsg. apply String.eqb_neq in Hmsg. rewrite Hmsg.
    eexists. rewrite !app_assoc. reflexivity.
  - intros Hmsg. apply String.eqb_eq in Hmsg. by rewrite Hmsg.
Qed.

Lemma C1_level_always_msg_unless_empty_witness :
  ∃ before after,
    @Format_bytes Example.env (init 0) Example.plain
       (mkEntry ∅ 0 InfoLevel "hello" None) []
    = before +:+ "level=" +:+ "info" +:+ " " +:+ after
    ∧ (∃ rest, after = "msg=" +:+ "hello" +:+ " " +:+ rest).
Proof.
  destruct (@C1_level_always_msg_unless_empty Example.env (init 0)
              Example.plain (mkEntry ∅ 0 InfoLevel "hello" None) []
              eq_refl) as (before & after & Hout & Hmsg & _).
  exists before, after. split; [exact Hout|].
  apply Hmsg. discriminate.
Defined.

(** ** The caller's buffer (claim C10) *)

(** C10: when the event carries a buffer, [Format] appends to it without
    resetting it: the bytes returned are the buffer's prior contents
    followed by the line that the same event yields with no buffer, and the
    buffer holds them after the call; with no buffer the bytes are that line
    alone. *)
Theorem C10_caller_buffer_appended `{GoEnv} (g : Globals) (f : textFormatter)
    (d : Fields) (t : Time) (l : Level) (m : string) (ks : list string)
    (prior : string) :
  Format_bytes g f (mkEntry d t l m (Some prior)) ks
  = prior +:+ Format_bytes g f (mkEntry d t l m None) ks
  ∧ Buffer (textFormatter_Format g f (mkEntry d t l m (Some prior)) ks).1
    = Some (prior +:+ Format_bytes g f (mkEntry d t l m None) ks)
  ∧ Buffer (textFormatter_Format g f (mkEntry d t l m None) ks).1 = None.
Proof.
  assert (Format_bytes g f (mkEntry d t l m (Some prior)) ks
          = prior +:+ Format_bytes g f (mkEntry d t l m None) ks) as Hbytes.
  { destruct (isColored f) eqn:Hcol.
    - rewrite !(Format_bytes_colored g f _ ks Hcol). simpl.
      by rewrite app_nil_l.
    - rewrite !(Format_bytes_plain g f _ ks Hcol). simpl.
      by rewrite app_nil_l. }
  split; [exact Hbytes|]. split; [|reflexivity].
  rewrite <- Hbytes. reflexivity.
Qed.

(** ** The color decision (claim C7) *)

Lemma Format_bytes_escape_prefix `{GoEnv} (g : Globals) (f : textFormatter)
    (entry : Entry) (ks : list string) :
  Buffer entry = None →
  String.prefix (ESC +:+ "[") (Format_bytes g f entry ks) = isColored f.
Proof.
  intros Hbuf. destruct (isColored f) eqn:Hcol.
  - rewrite (Format_bytes_colored g f entry ks Hcol), Hbuf. simpl.
    rewrite app_nil_l. unfold level_tag. rewrite !app_assoc.
    exact (prefix_app (ESC +:+ "[") _).
  - rewrite (Format_bytes_plain g f entry ks Hcol), Hbuf. simpl.
    rewrite app_nil_l.
    destruct (DisableTimestamp (settings f)).
    + rewrite app_nil_l. by apply (prefix_cons_ne "027" "l").
    + rewrite !app_assoc. by apply (prefix_cons_ne "027" "t").
Qed.

Lemma has_byte_app (c : ascii) (s t : string) :
  has_byte c (s +:+ t) = has_byte c s || has_byte c t.
Proof.
  induction s as [|c' s IH]; [done|].
  rewrite app_cons. simpl. by rewrite IH, orb_assoc.
Qed.

Lemma escape_free_app (s t : string) :
  escape_free (s +:+ t) ↔ escape_free s ∧ escape_free t.
Proof. unfold escape_free. rewrite has_byte_app. apply orb_false_iff. Qed.

Lemma value_text_cases (f : textFormatter) (v : Value) :
  value_text f v = fmt_Sprint v
  ∨ value_text f v
    = QuoteCharacter (settings f) +:+ fmt_Sprint v
        +:+ QuoteCharacter (settings f).
Proof.
  unfold value_text, appendValue.
  destruct v; simpl; repeat case_match; rewrite ?app_nil_l; auto.
Qed.

Lemma value_text_escape_free (f : textFormatter) (v : Value) :
  escape_free (QuoteCharacter (settings f)) → escape_free (fmt_Sprint v) →
  escape_free (value_text f v).
Proof.
  intros Hq Hv. destruct (value_text_cases f v) as [-> | ->]; [done|].
  by rewrite !escape_free_app.
Qed.

Lemma pairs_text_escape_free (f : textFormatter) (data : Fields)
    (keys : list string) :
  escape_free (QuoteCharacter (settings f)) →
  (∀ k, k ∈ keys →
        escape_free k ∧ escape_free (fmt_Sprint (index data k))) →
  escape_free (pairs_text f data keys).
Proof.
  intros Hq. induction keys as [|k keys IH]; intros Hkeys; simpl; [done|].
  destruct (Hkeys k) as [Hk Hv]; [left|].
  rewrite !escape_free_app. split_and!; try done.
  - by apply value_text_escape_free.
  - apply IH. intros k' Hk'. apply Hkeys. by right.
Qed.

Lemma Format_bytes_plain_escape_free `{GoEnv} (g : Globals)
    (f : textFormatter) (entry : Entry) (ks : list string) :
  isColored f = false →
  Buffer entry = None →
  escape_free (QuoteCharacter (settings f)) →
  escape_free (Time_Format (Time_ entry) (TimestampFormat (settings f))) →
  escape_free (Message entry) →
  (∀ k, k ∈ Format_keys f ks →
        escape_free k
        ∧ escape_free (fmt_Sprint (index (prefixFieldClashes (Data entry)) k))) →
  escape_free (Format_bytes g f entry ks).
Proof.
  intros Hplain Hbuf Hq Htime Hmsg Hkeys.
  rewrite (Format_bytes_plain g f entry ks Hplain), Hbuf.
  rewrite value_text_Level_String, !escape_free_app. split_and!; try done.
  - destruct (DisableTimestamp (settings f)); [done|].
    rewrite !escape_free_app. split_and!; try done.
    by apply value_text_escape_free.
  - by destruct (Level_ entry).
  - destruct (Message entry =? "")%string; [done|].
    rewrite !escape_free_app. split_and!; try done.
    by apply value_text_escape_free.
  - by apply pairs_text_escape_free.
Qed.

(** C7: the formatter [Build] returns carries the decision
    (force-colors or (terminal sink and platform other than "windows")) and
    not disable-colors, taken from the options and the sink at construction;
    every [Format] call on that formatter follows it.  When the decision is
    to color, every line opens with the escape sequence; when it is not, no
    line does, and the formatter writes no escape byte of its own: a line is
    escape-free as soon as the quote character, the time rendering, the
    message, the keys and the printed values are.  So two calls on one
    formatter never differ in whether its escape codes are present. *)
Theorem C7_color_decision_fixed_at_build `{GoEnv} (factory : TextFormatter)
    (out : Writer) (minimumLevel : Level) :
  let f := (TextFormatter_Build factory out minimumLevel).2.1 in
  isColored f
  = (ForceColors factory
     || (IsTerminal out && negb (GOOS =? "windows")%string))
    && negb (DisableColors factory)
  ∧ (∀ g d t l m ks,
       String.prefix (ESC +:+ "[") (Format_bytes g f (mkEntry d t l m None) ks)
       = isColored f)
  ∧ (∀ g d t l m ks g' d' t' l' m' ks',
       String.prefix (ESC +:+ "[") (Format_bytes g f (mkEntry d t l m None) ks)
       = String.prefix (ESC +:+ "[")
           (Format_bytes g' f (mkEntry d' t' l' m' None) ks'))
  ∧ (∀ g d t l m ks,
       isColored f = false →
       escape_free (QuoteCharacter (settings f)) →
       escape_free (Time_Format t (TimestampFormat (settings f))) →
       escape_free m →
       (∀ k, k ∈ Format_keys f ks →
             escape_free k
             ∧ escape_free (fmt_Sprint (index (prefixFieldClashes d) k))) →
       escape_free (Format_bytes g f (mkEntry d t l m None) ks)).
Proof.
  intros f. split; [|split; [|split]].
  - unfold f, TextFormatter_Build. simpl. repeat case_match; reflexivity.
  - intros. by apply Format_bytes_escape_prefix.
  - intros. by rewrite !Format_bytes_escape_prefix.
  - intros. by apply Format_bytes_plain_escape_free.
Qed.

Lemma C7_color_decision_fixed_at_build_witness :
  isColored Example.colored = true
  ∧ isColored Example.plain = false
  ∧ escape_free
      (@Format_bytes Example.env (init 0) Example.plain
         (mkEntry {["pid" := VInt 123]} 0 InfoLevel "started" None) ["pid"]).
Proof.
  split; [|split].
  - exact (proj1 (@C7_color_decision_fixed_at_build Example.env
                    Example.options (OsFile 1) InfoLevel)).
  - exact (proj1 (@C7_color_decision_fixed_at_build Example.env
                    Example.options OtherWriter InfoLevel)).
  - apply (proj2 (proj2 (proj2 (@C7_color_decision_fixed_at_build
                                  Example.env Example.options OtherWriter
                                  InfoLevel)))); try reflexivity.
    intros k Hk. apply list_elem_of_singleton in Hk as ->.
    split; reflexivity.
Defined.

(** ** Relative timestamps of the colored layout (claim C3) *)

Lemma fmt_04d_nonneg (n : Z) :
  0 ≤ n →
  fmt_04d n
  = replicate_byte (4 - String.length (pretty n)) "0" +:+ pretty n.
Proof.
  intros Hn. unfold fmt_04d.
  destruct (Z.ltb_spec n 0) as [?|_]; [lia|]. by rewrite Z.abs_eq.
Qed.

Lemma pretty_N_go_length (k : nat) (x : N) (s : string) :
  (x < 10 ^ N.of_nat k)%N →
  (String.length (pretty_N_go x s) ≤ String.length s + k)%nat.
Proof.
  revert x s. induction k as [|k IH]; intros x s Hx.
  - assert (x = 0%N) as -> by (simpl in Hx; lia).
    rewrite pretty_N_go_0. lia.
  - destruct (decide (x = 0%N)) as [->|Hpos].
    + rewrite pretty_N_go_0. lia.
    + rewrite pretty_N_go_step by lia.
      etrans; [apply IH|simpl; lia].
      apply N.Div0.div_lt_upper_bound.
      by rewrite Nat2N.inj_succ, N.pow_succ_r' in Hx.
Qed.

Lemma pretty_Z_length (n : Z) :
  0 ≤ n ≤ 9999 → (String.length (pretty n) ≤ 4)%nat.
Proof.
  intros Hn. destruct n as [|p|p]; [simpl; lia| |lia].
  unfold pretty, pretty_Z, pretty, pretty_positive, pretty, pretty_N.
  rewrite decide_False by done.
  apply (pretty_N_go_length 4 (N.pos p) ""). simpl. lia.
Qed.

Lemma fmt_04d_width (n : Z) :
  0 ≤ n ≤ 9999 → String.length (fmt_04d n) = 4%nat.
Proof.
  intros Hn. rewrite fmt_04d_nonneg by lia.
  rewrite app_length, replicate_byte_length.
  pose proof (pretty_Z_length n Hn). lia.
Qed.

Lemma Time_Sub_exact (t u : Time) :
  minDuration ≤ t - u ≤ maxDuration → Time_Sub t u = t - u.
Proof.
  intros Hrange. unfold Time_Sub. simpl.
  destruct (Z.ltb_spec (t - u) minDuration); [lia|].
  destruct (Z.ltb_spec maxDuration (t - u)); [lia|done].
Qed.

(** C3, as stated, fails: the program starts at instant 0, the formatter is
    built 100 seconds later and the event is stamped 105 seconds after the
    start.  The bracket shows the 105 seconds since the start of the
    program; the seconds since the construction of the formatter would read
    0005. *)
Lemma C3_bracket_counts_from_program_start :
  let start : Time := 0 in
  let built_at : Time := 100 * Second in
  let stamped : Time := 105 * Second in
  @Format_bytes Example.env (init start) Example.colored
     (mkEntry ∅ stamped InfoLevel "hello" None) []
  = ESC +:+ "[34mINFO" +:+ ESC +:+ "[0m[0105] hello"
      +:+ replicate_byte 39 " " +:+ " " +:+ NL
  ∧ fmt_04d (elapsed_seconds built_at stamped) = "0005"
  ∧ @Format_bytes Example.env (init start) Example.colored
       (mkEntry ∅ stamped InfoLevel "hello" None) []
    ≠ ESC +:+ "[34mINFO" +:+ ESC +:+ "[0m["
        +:+ fmt_04d (elapsed_seconds built_at stamped) +:+ "] hello"
        +:+ replicate_byte 39 " " +:+ " " +:+ NL.
Proof.
  split; [vm_compute; reflexivity|]. split; [vm_compute; reflexivity|].
  vm_compute. discriminate.
Qed.

(** C3, amended: on the colored path with timestamps enabled and
    full-timestamp not set, the bracketed segment before the padded message
    holds the number of whole seconds from the initialisation of the package
    (the start of the program, when [baseTimestamp] is assigned) to the
    event's timestamp, printed with [%04d]: four digits, zeros on the left,
    when the count is between 0 and 9999. *)
Theorem C3_relative_seconds_since_program_start `{GoEnv} (start : Time)
    (f : textFormatter) (entry : Entry) (ks : list string) :
  isColored f = true →
  DisableTimestamp (settings f) = false →
  FullTimestamp (settings f) = false →
  let seconds := Z.quot (Time_Sub (Time_ entry) start) Second in
  Format_bytes (init start) f entry ks
  = default "" (Buffer entry) +:+ level_tag (Level_ entry)
      +:+ "[" +:+ fmt_04d seconds +:+ "] "
      +:+ fmt_pad44 (Message entry) +:+ " "
      +:+ colored_pairs_text f (Level_ entry)
            (prefixFieldClashes (Data entry)) (Format_keys f ks)
      +:+ NL
  ∧ (0 ≤ seconds ≤ 9999 →
     String.length (fmt_04d seconds) = 4%nat
     ∧ fmt_04d seconds
       = replicate_byte (4 - String.length (pretty seconds)) "0"
           +:+ pretty seconds)
  ∧ (minDuration ≤ Time_ entry - start ≤ maxDuration →
     seconds = Z.quot (Time_ entry - start) 1000000000).
Proof.
  intros Hcol Hts Hfull seconds. split; [|split].
  - rewrite (Format_bytes_colored _ f entry ks Hcol), Hts, Hfull.
    unfold seconds, elapsed_seconds. simpl. by rewrite !app_assoc.
  - intros Hrange. split; [by apply fmt_04d_width|].
    apply fmt_04d_nonneg. lia.
  - intros Hrange. unfold seconds. by rewrite Time_Sub_exact.
Qed.

Lemma C3_relative_seconds_since_program_start_witness :
  @Format_bytes Example.env (init 0) Example.colored
     (mkEntry ∅ (105 * Second) InfoLevel "hello" None) []
  = "" +:+ level_tag InfoLevel +:+ "[" +:+ "0105" +:+ "] "
      +:+ @fmt_pad44 Example.env "hello" +:+ " " +:+ "" +:+ NL.
Proof.
  exact (proj1 (@C3_relative_seconds_since_program_start Example.env 0
                  Example.colored
                  (mkEntry ∅ (105 * Second) InfoLevel "hello" None) []
                  eq_refl eq_refl eq_refl)).
Defined.

(** ** Quoting (claim C6) *)

Lemma plain_char_spec (ch : ascii) : plain_char ch = true ↔ in_plain_set ch.
Proof.
  assert (plain_char ch = bool_decide (in_plain_set ch)) as ->.
  { destruct ch as [[] [] [] [] [] [] [] []]; vm_compute; reflexivity. }
  apply bool_decide_eq_true.
Qed.

Lemma has_other_char_spec (text : string) :
  has_other_char text = false ↔ only_plain text.
Proof.
  induction text as [|ch rest IH]; simpl; [done|].
  rewrite <- IH, <- plain_char_spec.
  destruct (plain_char ch); simpl; intuition congruence.
Qed.

Lemma length_zero_iff (text : string) :
  (String.length text =? 0)%nat = true ↔ text = "".
Proof. destruct text; simpl; split; done. Qed.

Lemma needsQuoting_other (f : textFormatter) (text : string) :
  has_other_char text = true → needsQuoting f text = true.
Proof. intros Hother. unfold needsQuoting. rewrite Hother. by case_match. Qed.

Lemma needsQuoting_plain (f : textFormatter) (text : string) :
  has_other_char text = false → text ≠ "" → needsQuoting f text = false.
Proof.
  intros Hplain Hne. unfold needsQuoting. rewrite Hplain.
  destruct (String.length text =? 0)%nat eqn:Hlen.
  - by apply length_zero_iff in Hlen.
  - by rewrite andb_false_r.
Qed.

(** Under quote-empty-fields the empty text is written as two quote
    characters. *)
Lemma empty_text_quoted_under_quote_empty :
  QuoteEmptyFields (settings Example.quote_empty) = true
  ∧ appendValue Example.quote_empty "" (VString "") = DQUOTE +:+ DQUOTE.
Proof. split; reflexivity. Qed.

(** C6: a text made only of characters from a-z, A-Z, 0-9, - and .
    is written unquoted when it is not empty, or when quote-empty-fields is
    not set; a text with a character outside that set, or the empty text
    when quote-empty-fields is set, is wrapped in the configured quote
    character on both sides. *)
Theorem C6_quoting_rule (f : textFormatter) (b text : string) :
  (only_plain text →
   text ≠ "" ∨ QuoteEmptyFields (settings f) = false →
   appendValue f b (VString text) = b +:+ text)
  ∧ (¬ only_plain text
     ∨ (text = "" ∧ QuoteEmptyFields (settings f) = true) →
     appendValue f b (VString text)
     = b +:+ QuoteCharacter (settings f) +:+ text
         +:+ QuoteCharacter (settings f)).
Proof.
  unfold appendValue, needsQuoting. split.
  - intros Hplain%has_other_char_spec Hcase. rewrite Hplain.
    destruct Hcase as [Hne| ->].
    + destruct (String.length text =? 0)%nat eqn:Hlen.
      * by apply length_zero_iff in Hlen.
      * by rewrite andb_false_r.
    + done.
  - intros [Hother|[-> ->]]; [|reflexivity].
    rewrite <- has_other_char_spec in Hother.
    apply not_false_is_true in Hother. rewrite Hother.
    by destruct (_ && _).
Qed.

Lemma C6_quoting_rule_witness :
  appendValue Example.plain "pid=" (VString "v1.2-rc") = "pid=" +:+ "v1.2-rc"
  ∧ appendValue Example.plain "msg=" (VString "disk full")
    = "msg=" +:+ DQUOTE +:+ "disk full" +:+ DQUOTE.
Proof.
  split.
  - apply (C6_quoting_rule Example.plain "pid=" "v1.2-rc").
    + apply has_other_char_spec. reflexivity.
    + left. discriminate.
  - apply (C6_quoting_rule Example.plain "msg=" "disk full").
    left. intros Hplain%has_other_char_spec. discriminate.
Defined.

(** ** The concrete scenario of the plain layout (claim C4) *)

Lemma range_order_singleton (k : string) (v : Value) (ks : list string) :
  range_order {[k := v]} ks → ks = [k].
Proof.
  intros [Hnd Hks].
  assert (∀ k', k' ∈ ks ↔ k' = k) as Hiff.
  { intros k'. rewrite Hks, lookup_singleton_is_Some. split; congruence. }
  clear Hks. destruct ks as [|k1 ks].
  - by pose proof (proj2 (Hiff k) eq_refl) as ?%elem_of_nil.
  - assert (k1 = k) as -> by (apply Hiff; left).
    destruct ks as [|k2 ks]; [done|].
    assert (k2 = k) as -> by (apply Hiff; right; left).
    apply NoDup_cons in Hnd as [Hnotin _]. exfalso. apply Hnotin. left.
Qed.

Lemma prefixFieldClashes_pid (v : Value) :
  prefixFieldClashes {["pid" := v]} = {["pid" := v]}.
Proof. reflexivity. Qed.

(** C4, as stated, fails: the line ends with a space between the last pair
    and the newline. *)
Lemma C4_line_ends_with_space :
  @Format_bytes Example.env (init 0) Example.plain
     (mkEntry {["pid" := VInt 123]} 0 InfoLevel "started" None) ["pid"]
  = "time=" +:+ DQUOTE +:+ "2024-01-02T15:04:05Z" +:+ DQUOTE
      +:+ " level=info msg=started pid=123 " +:+ NL
  ∧ @Format_bytes Example.env (init 0) Example.plain
       (mkEntry {["pid" := VInt 123]} 0 InfoLevel "started" None) ["pid"]
    ≠ "time=" +:+ DQUOTE +:+ "2024-01-02T15:04:05Z" +:+ DQUOTE
        +:+ " level=info msg=started pid=123" +:+ NL.
Proof. split; [vm_compute; reflexivity|]. vm_compute. discriminate. Qed.

(** C4, amended: for the formatter built non-colored with
    DisableTimestamp=false, the default TimestampFormat and the default
    quote character, the event (info, "started", pid=123) at a fixed time
    whose rendering needs quoting (the default layout writes colons) yields
    exactly time="<formatted-time>" level=info msg=started pid=123, then one
    space (a space follows every pair, the last one too), then a single
    newline; pid's value is unquoted. *)
Theorem C4_plain_scenario `{GoEnv} (g : Globals) (factory : TextFormatter)
    (out : Writer) (minimumLevel : Level) (t : Time) (ks : list string) :
  DisableTimestamp factory = false →
  TimestampFormat factory = "" →
  QuoteCharacter factory = "" →
  isColored (TextFormatter_Build factory out minimumLevel).2.1 = false →
  has_other_char (Time_Format t DefaultTimestampFormat) = true →
  range_order (prefixFieldClashes {["pid" := VInt 123]}) ks →
  Format_bytes g (TextFormatter_Build factory out minimumLevel).2.1
    (mkEntry {["pid" := VInt 123]} t InfoLevel "started" None) ks
  = "time=" +:+ DQUOTE +:+ Time_Format t DefaultTimestampFormat +:+ DQUOTE
      +:+ " level=info msg=started pid=123 " +:+ NL.
Proof.
  intros Hts Hfmt Hq Hplain Htime Hks.
  rewrite prefixFieldClashes_pid in Hks.
  apply range_order_singleton in Hks as ->.
  rewrite (Format_bytes_plain g _ _ _ Hplain).
  unfold TextFormatter_Build. rewrite Hts, Hfmt, Hq. simpl.
  unfold Format_keys, value_text, appendValue. simpl.
  rewrite (needsQuoting_other _ _ Htime).
  rewrite !needsQuoting_plain by done. simpl.
  destruct (DisableSorting factory); simpl; rewrite !app_assoc; reflexivity.
Qed.

Lemma C4_plain_scenario_witness :
  @Format_bytes Example.env (init 0) Example.plain
    (mkEntry {["pid" := VInt 123]} 0 InfoLevel "started" None) ["pid"]
  = "time=" +:+ DQUOTE +:+ "2024-01-02T15:04:05Z" +:+ DQUOTE
      +:+ " level=info msg=started pid=123 " +:+ NL.
Proof.
  apply (@C4_plain_scenario Example.env (init 0) Example.options OtherWriter
           InfoLevel 0 ["pid"]); try reflexivity.
  split.
  - apply NoDup_singleton.
  - intros k. rewrite prefixFieldClashes_pid, lookup_singleton_is_Some.
    rewrite list_elem_of_singleton. naive_solver.
Defined.

(** ** Field-clash resolution: lookups *)

Lemma prefixed_ne (name : string) : "fields." +:+ name ≠ name.
Proof.
  intros Heq. apply (f_equal String.length) in Heq.
  rewrite app_length in Heq. simpl in Heq. lia.
Qed.

Lemma prefix_clash_lookup_ne (name : string) (data : Fields) (k : string) :
  k ≠ name → k ≠ "fields." +:+ name →
  prefix_clash name data !! k = data !! k.
Proof.
  intros Hname Hpre. unfold prefix_clash.
  destruct (data !! name); [|done].
  by rewrite lookup_insert_ne, lookup_delete_ne.
Qed.

Lemma prefix_clash_lookup_name (name : string) (data : Fields) :
  prefix_clash name data !! name = None.
Proof.
  unfold prefix_clash. destruct (data !! name) as [v|] eqn:Hname; [|done].
  rewrite lookup_insert_ne by apply prefixed_ne. apply lookup_delete_eq.
Qed.



Lemma prefixFieldClashes_reserved (data : Fields) (k : string) :
  reserved k → prefixFieldClashes data !! k = None.
Proof.
  unfold prefixFieldClashes. intros [->|[->| ->]].
  - rewrite !prefix_clash_lookup_ne by done. apply prefix_clash_lookup_name.
  - rewrite prefix_clash_lookup_ne by done. apply prefix_clash_lookup_name.
  - apply prefix_clash_lookup_name.
Qed.



Lemma prefix_clash_fmap (h : Value → Value) (name : string) (data : Fields) :
  prefix_clash name (h <$> data) = h <$> prefix_clash name data.
Proof.
  unfold prefix_clash. rewrite lookup_fmap.
  destruct (data !! name); simpl; [|done].
  by rewrite fmap_insert, fmap_delete.
Qed.

Lemma prefixFieldClashes_fmap (h : Value → Value) (data : Fields) :
  prefixFieldClashes (h <$> data) = h <$> prefixFieldClashes data.
Proof. unfold prefixFieldClashes. by rewrite !prefix_clash_fmap. Qed.

(** ** Field-clash resolution: keys *)

Lemma dom_prefix_clash (name : string) (data : Fields) :
  dom (prefix_clash name data)
  = if decide (name ∈ dom data)
    then {["fields." +:+ name]} ∪ (dom data ∖ {[name]})
    else dom data.
Proof.
  unfold prefix_clash. destruct (data !! name) as [v|] eqn:Hname.
  - rewrite decide_True by (apply elem_of_dom; eauto).
    by rewrite dom_insert_L, dom_delete_L.
  - by rewrite decide_False by (by apply not_elem_of_dom).
Qed.

Lemma dom_prefix_clash_ext (name : string) (m1 m2 : Fields) :
  dom m1 = dom m2 → dom (prefix_clash name m1) = dom (prefix_clash name m2).
Proof. intros Hdom. by rewrite !dom_prefix_clash, Hdom. Qed.

Lemma dom_prefixFieldClashes_ext (m1 m2 : Fields) :
  dom m1 = dom m2 → dom (prefixFieldClashes m1) = dom (prefixFieldClashes m2).
Proof. intros Hdom. unfold prefixFieldClashes. by do 3 apply dom_prefix_clash_ext. Qed.

(** ** Sorted attribute keys (claim C8) *)

(** [String.le] is the byte-wise lexicographic order of Go's [<=] on
    strings: the empty text comes first, and two non-empty texts compare by
    their first bytes, then by their tails. *)
Lemma String_le_bytewise (s t : string) :
  String.le s t ↔
  match s, t with
  | "", _ => True
  | String _ _, "" => False
  | String a s', String b t' =>
      (nat_of_ascii a < nat_of_ascii b)%nat ∨ (a = b ∧ String.le s' t')
  end.
Proof.
  unfold String.le, String.leb.
  destruct s as [|a s'], t as [|b t']; simpl; [done..|].
  unfold Ascii.compare.
  destruct (N.compare_spec (N_of_ascii a) (N_of_ascii b)) as [Heq|Hlt|Hgt].
  - apply (f_equal ascii_of_N) in Heq. rewrite !ascii_N_embedding in Heq.
    subst b. split; [by right|]. intros [?|[_ ?]]; [lia|done].
  - split; [intros _; left|done].
    unfold nat_of_ascii. lia.
  - split; [done|]. intros [Hlt|[-> _]]; [|lia].
    unfold nat_of_ascii in Hlt. lia.
Qed.

Lemma range_order_Permutation (m1 m2 : Fields) (ks1 ks2 : list string) :
  dom m1 = dom m2 → range_order m1 ks1 → range_order m2 ks2 → ks1 ≡ₚ ks2.
Proof.
  intros Hdom [Hnd1 Hks1] [Hnd2 Hks2]. apply NoDup_Permutation; [done..|].
  intros k. by rewrite Hks1, Hks2, <- !elem_of_dom, Hdom.
Qed.

Lemma sort_Strings_sorted (ks : list string) :
  StronglySorted String.le (sort_Strings ks).
Proof. apply StronglySorted_merge_sort; apply _. Qed.

Lemma sort_Strings_Permutation (ks : list string) : sort_Strings ks ≡ₚ ks.
Proof. apply merge_sort_Permutation. Qed.

Lemma sort_Strings_order_irrelevant (ks1 ks2 : list string) :
  ks1 ≡ₚ ks2 → sort_Strings ks1 = sort_Strings ks2.
Proof.
  intros Hperm. apply (StronglySorted_unique String.le).
  - apply sort_Strings_sorted.
  - apply sort_Strings_sorted.
  - by rewrite !sort_Strings_Permutation.
Qed.

Lemma Format_bytes_keys `{GoEnv} (g : Globals) (f : textFormatter)
    (entry : Entry) (ks1 ks2 : list string) :
  Format_keys f ks1 = Format_keys f ks2 →
  Format_bytes g f entry ks1 = Format_bytes g f entry ks2.
Proof.
  intros Hkeys. destruct (isColored f) eqn:Hcol.
  - by rewrite !(Format_bytes_colored g f entry _ Hcol), Hkeys.
  - by rewrite !(Format_bytes_plain g f entry _ Hcol), Hkeys.
Qed.

Lemma Format_bytes_line `{GoEnv} (g : Globals) (f : textFormatter)
    (entry : Entry) (ks : list string) :
  Format_bytes g f entry ks
  = if isColored f then colored_line g f entry (Format_keys f ks)
    else plain_line f entry (Format_keys f ks).
Proof.
  destruct (isColored f) eqn:Hcol.
  - apply (Format_bytes_colored g f entry ks Hcol).
  - apply (Format_bytes_plain g f entry ks Hcol).
Qed.

(** C8: with sorting not disabled, the attribute pairs are written in
    ascending byte-wise order of their keys, whatever order the runtime
    ranged over them in: the line is the reserved part followed by one pair
    per key of a sequence that is sorted and holds exactly the attribute
    keys; two events with the same attribute keys are written with the same
    key sequence, and formatting one event again yields the same bytes. *)
Theorem C8_sorted_key_order `{GoEnv} (g : Globals) (f : textFormatter)
    (e1 e2 : Entry) (ks1 ks2 : list string) :
  DisableSorting (settings f) = false →
  dom (Data e1) = dom (Data e2) →
  range_order (prefixFieldClashes (Data e1)) ks1 →
  range_order (prefixFieldClashes (Data e2)) ks2 →
  ∃ keys : list string,
    StronglySorted String.le keys
    ∧ keys ≡ₚ ks1
    ∧ (∀ k, k ∈ keys ↔ is_Some (prefixFieldClashes (Data e1) !! k))
    ∧ Format_keys f ks1 = keys
    ∧ Format_keys f ks2 = keys
    ∧ Format_bytes g f e1 ks1
      = (if isColored f then colored_line g f e1 keys
         else plain_line f e1 keys)
    ∧ Format_bytes g f e2 ks2
      = (if isColored f then colored_line g f e2 keys
         else plain_line f e2 keys)
    ∧ Format_bytes g f e1 ks2 = Format_bytes g f e1 ks1.
Proof.
  intros Hsort Hdom Hks1 Hks2.
  assert (∀ ks, Format_keys f ks = sort_Strings ks) as Hsorted.
  { intros ks. unfold Format_keys. by rewrite Hsort. }
  assert (sort_Strings ks2 = sort_Strings ks1) as Hsame.
  { apply sort_Strings_order_irrelevant.
    eapply range_order_Permutation; [|done..].
    symmetry. by apply dom_prefixFieldClashes_ext. }
  exists (sort_Strings ks1). split_and!.
  - apply sort_Strings_sorted.
  - apply sort_Strings_Permutation.
  - intros k. rewrite sort_Strings_Permutation. apply Hks1.
  - apply Hsorted.
  - by rewrite Hsorted.
  - by rewrite Format_bytes_line, Hsorted.
  - by rewrite Format_bytes_line, Hsorted, Hsame.
  - apply Format_bytes_keys. by rewrite !Hsorted.
Qed.

Lemma C8_sorted_key_order_witness :
  @Format_bytes Example.env (init 0) Example.plain
    (mkEntry (<["zone" := VString "eu"]>
                (<["msg" := VInt 7]> {["app" := VString "api"]}))
       0 InfoLevel "up" None)
    ["zone"; "fields.msg"; "app"]
  = "time=" +:+ DQUOTE +:+ "2024-01-02T15:04:05Z" +:+ DQUOTE
      +:+ " level=info msg=up app=api fields.msg=7 zone=eu " +:+ NL
  ∧ @Format_bytes Example.env (init 0) Example.plain
      (mkEntry (<["zone" := VString "eu"]>
                  (<["msg" := VInt 7]> {["app" := VString "api"]}))
         0 InfoLevel "up" None)
      ["app"; "zone"; "fields.msg"]
    = "time=" +:+ DQUOTE +:+ "2024-01-02T15:04:05Z" +:+ DQUOTE
        +:+ " level=info msg=up app=api fields.msg=7 zone=eu " +:+ NL.
Proof.
  pose (d := <["zone" := VString "eu"]>
               (<["msg" := VInt 7]> ({["app" := VString "api"]} : Fields))).
  assert (∀ ks, ks ≡ₚ ["app"; "fields.msg"; "zone"] →
                range_order (prefixFieldClashes d) ks) as Hrange.
  { intros ks Hperm. split.
    - rewrite Hperm. compute_done.
    - intros k. rewrite Hperm, <- elem_of_dom.
      assert (dom (prefixFieldClashes d)
              = list_to_set ["app"; "fields.msg"; "zone"]) as ->
        by compute_done.
      by rewrite elem_of_list_to_set. }
  assert (range_order (prefixFieldClashes d) ["zone"; "fields.msg"; "app"])
    as Hks1 by (apply Hrange; compute_done).
  assert (range_order (prefixFieldClashes d) ["app"; "zone"; "fields.msg"])
    as Hks2 by (apply Hrange; compute_done).
  destruct (@C8_sorted_key_order Example.env (init 0) Example.plain
              (mkEntry d 0 InfoLevel "up" None)
              (mkEntry d 0 InfoLevel "up" None)
              ["zone"; "fields.msg"; "app"] ["app"; "zone"; "fields.msg"]
              eq_refl eq_refl Hks1 Hks2)
    as (keys & _ & _ & _ & Hkeys & _ & Hline1 & Hline2 & _).
  subst keys. split.
  - etrans; [exact Hline1|]. vm_compute. reflexivity.
  - etrans; [exact Hline2|]. vm_compute. reflexivity.
Defined.

(** ** The JSON formatter: serialization failure (claim C5) *)

(** C5: when serialization of the assembled mapping fails, [Format] returns
    no bytes and an error whose text carries the cause; when it succeeds,
    [Format] returns the encoding followed by a newline and no error. *)
Theorem C5_failure_returns_no_bytes `{GoEnv} (f : JSON.jsonFormatter)
    (entry : Entry) :
  (∀ cause,
     json_Marshal (JSON.Format_data f entry) = inr cause →
     JSON.Format f entry
     = (None,
        Some (errorString
                ("Failed to marshal fields to JSON, " +:+ Error cause))))
  ∧ (∀ serialized,
       json_Marshal (JSON.Format_data f entry) = inl serialized →
       JSON.Format f entry = (Some (serialized +:+ NL), None))
  ∧ (∀ bytes err, JSON.Format f entry = (bytes, Some err) → bytes = None).
Proof.
  unfold JSON.Format, JSON.marshal_failure. split; [|split].
  - by intros cause ->.
  - by intros serialized ->.
  - intros bytes err. destruct (json_Marshal _); congruence.
Qed.

Lemma C5_failure_returns_no_bytes_witness :
  @JSON.Format Example.env
     (@JSON.Build Example.env (JSON.mkJSONFormatter "" false ∅) OtherWriter
        InfoLevel).1
     (mkEntry {["pid" := VInt 123]} 0 InfoLevel "started" None)
  = (None,
     Some (errorString
             ("Failed to marshal fields to JSON, "
                +:+ "json: unsupported value")))
  ∧ @JSON.Format Example.env
      (@JSON.Build Example.env (JSON.mkJSONFormatter "" false ∅) OtherWriter
         InfoLevel).1
      (mkEntry {["err" := VError (errorString "disk full")]} 0 ErrorLevel ""
         None)
    = (Some (Example.scenario_json +:+ NL), None).
Proof.
  split.
  - apply (proj1 (@C5_failure_returns_no_bytes Example.env _ _)
             (errorString "json: unsupported value")).
    vm_compute. reflexivity.
  - apply (proj1 (proj2 (@C5_failure_returns_no_bytes Example.env _ _))).
    vm_compute. reflexivity.
Defined.

(** ** The JSON formatter: an empty time key (claim C9) *)

(** C9: when the field map sends the time key to the empty string, the
    formatter [Build] returns has an empty time key, whatever
    DisableTimestamp says, and [Format] writes no time field: the mapping it
    assembles is the clash-resolved attributes with the message and the
    level, and the result does not depend on the event's timestamp. *)
Theorem C9_empty_time_key_drops_time `{GoEnv} (factory : JSON.JSONFormatter)
    (out : Writer) (minimumLevel : Level) :
  JSON.FieldMap_ factory !! JSON.FieldKeyTime = Some "" →
  let f := (JSON.Build factory out minimumLevel).1 in
  JSON.keyTime f = ""
  ∧ (∀ entry,
       JSON.Format_data f entry
       = <[JSON.keyLevel f := VString (Level_String (Level_ entry))]>
           (<[JSON.keyMsg f := VString (Message entry)]>
              (prefixFieldClashes (JSON.error_text <$> Data entry))))
  ∧ (∀ d t t' l m b,
       JSON.Format f (mkEntry d t l m b) = JSON.Format f (mkEntry d t' l m b)).
Proof.
  intros Hmap f.
  assert (JSON.keyTime f = "") as Hkey.
  { unfold f, JSON.Build, JSON.resolve. simpl. rewrite Hmap.
    by repeat case_match. }
  assert (∀ entry,
            JSON.Format_data f entry
            = <[JSON.keyLevel f := VString (Level_String (Level_ entry))]>
                (<[JSON.keyMsg f := VString (Message entry)]>
                   (prefixFieldClashes (JSON.error_text <$> Data entry))))
    as Hdata.
  { intros entry. unfold JSON.Format_data. by rewrite Hkey. }
  split; [done|]. split; [done|].
  intros d t t' l m b. unfold JSON.Format. by rewrite !Hdata.
Qed.

Lemma C9_empty_time_key_drops_time_witness :
  JSON.keyTime
    (@JSON.Build Example.env
       (JSON.mkJSONFormatter "" false {["time" := ""]}) OtherWriter
       InfoLevel).1 = "".
Proof.
  exact (proj1 (@C9_empty_time_key_drops_time Example.env
                  (JSON.mkJSONFormatter "" false {["time" := ""]})
                  OtherWriter InfoLevel eq_refl)).
Defined.

(** ** The JSON formatter: the decoded mapping (claim C2) *)




(** Writes under equal resolved keys overwrite one another: with the
    message key renamed to "level", the message is lost. *)
Lemma JSON_resolved_keys_may_coincide :
  @JSON.Format_data Example.env
     (@JSON.Build Example.env
        (JSON.mkJSONFormatter "" true {["msg" := "level"]}) OtherWriter
        InfoLevel).1
     (mkEntry ∅ 0 InfoLevel "hello" None)
  = {["level" := VString "info"]}.
Proof. by vm_compute. Qed.

(** A user attribute whose key is the resolved key of a reserved field is
    overwritten: with the message key renamed to "note", the attribute note
    is lost to the message. *)
Lemma JSON_attribute_under_resolved_key_is_overwritten :
  @JSON.Format_data Example.env
     (@JSON.Build Example.env
        (JSON.mkJSONFormatter "" true {["msg" := "note"]}) OtherWriter
        InfoLevel).1
     (mkEntry {["note" := VString "mine"]} 0 InfoLevel "hello" None)
  = <["level" := VString "info"]> {["note" := VString "hello"]}.
Proof. by vm_compute. Qed.

(** Two attributes that end under one key after clash resolution collapse:
    of time and fields.time, the renamed one is kept. *)
Lemma JSON_clashing_attributes_collapse :
  @JSON.Format_data Example.env
     (@JSON.Build Example.env (JSON.mkJSONFormatter "" true ∅) OtherWriter
        InfoLevel).1
     (mkEntry (<["time" := VInt 1]> {["fields.time" := VInt 2]}) 0 InfoLevel
        "hello" None)
  = <["fields.time" := VInt 1]>
      (<["level" := VString "info"]> {["msg" := VString "hello"]}).
Proof. by vm_compute. Qed.



(** * Further properties of the formatters *)

(** ** What [Build] changes (text formatter) *)

(** X1: [Build] changes nothing in the options but empty fields: it never
    fails, the formatter holds the options as [Build] left them, the quote
    character is never empty afterwards (the caller's, or the double quote),
    the timestamp layout is the caller's unless it is empty and timestamps
    are enabled (then the default), and every flag is kept. *)
Theorem TextFormatter_Build_fills_only_empty_fields `{GoEnv}
    (factory : TextFormatter) (out : Writer) (minimumLevel : Level) :
  let factory' := (TextFormatter_Build factory out minimumLevel).1 in
  let f := (TextFormatter_Build factory out minimumLevel).2.1 in
  (TextFormatter_Build factory out minimumLevel).2.2 = None
  ∧ settings f = factory'
  ∧ QuoteCharacter factory' ≠ ""
  ∧ QuoteCharacter factory'
    = (if decide (QuoteCharacter factory = "") then DQUOTE
       else QuoteCharacter factory)
  ∧ TimestampFormat factory'
    = (if decide (DisableTimestamp factory = false
                  ∧ TimestampFormat factory = "")
       then DefaultTimestampFormat else TimestampFormat factory)
  ∧ (ForceColors factory', DisableColors factory', DisableTimestamp factory',
     FullTimestamp factory', DisableSorting factory',
     QuoteEmptyFields factory')
    = (ForceColors factory, DisableColors factory, DisableTimestamp factory,
       FullTimestamp factory, DisableSorting factory,
       QuoteEmptyFields factory).
Proof.
  destruct factory as [fc dc dt ft tf ds qe qc].
  unfold TextFormatter_Build. simpl.
  destruct dt, (String.eqb_spec tf ""); simpl;
    destruct (String.eqb_spec qc ""); simpl;
    repeat case_decide; simplify_eq/=; naive_solver.
Qed.

Lemma TextFormatter_Build_normal_form `{GoEnv} (factory : TextFormatter)
    (out : Writer) (minimumLevel : Level) :
  let filled :=
    mkTextFormatter (ForceColors factory) (DisableColors factory)
      (DisableTimestamp factory) (FullTimestamp factory)
      (if negb (DisableTimestamp factory)
          && (TimestampFormat factory =? "")%string
       then DefaultTimestampFormat else TimestampFormat factory)
      (DisableSorting factory) (QuoteEmptyFields factory)
      (if (QuoteCharacter factory =? "")%string then DQUOTE
       else QuoteCharacter factory) in
  TextFormatter_Build factory out minimumLevel
  = (filled,
     ({| settings := filled;
         isColored :=
           (ForceColors factory
            || (IsTerminal out && negb (GOOS =? "windows")%string))
           && negb (DisableColors factory) |},
      None)).
Proof.
  destruct factory as [fc dc dt ft tf ds qe qc].
  unfold TextFormatter_Build. simpl.
  destruct (negb dt && (tf =? "")%string); simpl;
    destruct (qc =? "")%string; reflexivity.
Qed.

(** X2: [Build] is idempotent: building again from the options as the first
    call left them, for the same sink, returns the same options and the same
    formatter. *)
Theorem TextFormatter_Build_idempotent `{GoEnv} (factory : TextFormatter)
    (out : Writer) (minimumLevel : Level) :
  TextFormatter_Build (TextFormatter_Build factory out minimumLevel).1 out
    minimumLevel
  = TextFormatter_Build factory out minimumLevel.
Proof.
  rewrite (TextFormatter_Build_normal_form factory). simpl.
  rewrite TextFormatter_Build_normal_form. simpl.
  assert ((if negb (DisableTimestamp factory)
              && ((if negb (DisableTimestamp factory)
                      && (TimestampFormat factory =? "")%string
                   then DefaultTimestampFormat
                   else TimestampFormat factory) =? "")%string
           then DefaultTimestampFormat
           else if negb (DisableTimestamp factory)
                   && (TimestampFormat factory =? "")%string
                then DefaultTimestampFormat
                else TimestampFormat factory)
          = (if negb (DisableTimestamp factory)
                && (TimestampFormat factory =? "")%string
             then DefaultTimestampFormat
             else TimestampFormat factory)) as ->.
  { destruct (DisableTimestamp factory); simpl; [done|].
    destruct (String.eqb_spec (TimestampFormat factory) ""); simpl.
    - by destruct (_ =? _)%string.
    - by rewrite (proj2 (String.eqb_neq _ _)). }
  assert (((if (QuoteCharacter factory =? "")%string then DQUOTE
            else QuoteCharacter factory) =? "")%string = false) as ->.
  { destruct (String.eqb_spec (QuoteCharacter factory) ""); [done|].
    by apply String.eqb_neq. }
  reflexivity.
Qed.

(** ** The keys [Format] walks *)

Lemma Format_keys_Permutation (f : textFormatter) (ks : list string) :
  Format_keys f ks ≡ₚ ks.
Proof.
  unfold Format_keys. destruct (DisableSorting (settings f)); simpl; [done|].
  apply sort_Strings_Permutation.
Qed.

Lemma range_order_length (data : Fields) (ks : list string) :
  range_order data ks → length ks = size data.
Proof.
  intros [Hnd Hks]. rewrite <- (size_dom (D:=gset string)).
  change (length ks = length (elements (dom data))).
  apply Permutation_length, NoDup_Permutation; [done|apply NoDup_elements|].
  intros k. by rewrite Hks, elem_of_elements, elem_of_dom.
Qed.

(** X3: whether sorting is disabled or not, [Format] writes exactly one pair
    per attribute: the line it returns is the reserved part followed by the
    pairs of a sequence of keys that has no repetition, is as long as the
    mapping ranged over has attributes, and holds exactly its keys. *)
Theorem Format_walks_each_attribute_once `{GoEnv} (g : Globals)
    (f : textFormatter) (entry : Entry) (ks : list string) :
  range_order (prefixFieldClashes (Data entry)) ks →
  NoDup (Format_keys f ks)
  ∧ length (Format_keys f ks) = size (prefixFieldClashes (Data entry))
  ∧ (∀ k, k ∈ Format_keys f ks
          ↔ is_Some (prefixFieldClashes (Data entry) !! k))
  ∧ Format_bytes g f entry ks
    = (if isColored f then colored_line g f entry (Format_keys f ks)
       else plain_line f entry (Format_keys f ks)).
Proof.
  intros Hrange. pose proof (Format_keys_Permutation f ks) as Hperm.
  split_and!.
  - rewrite Hperm. apply Hrange.
  - rewrite Hperm. by apply range_order_length.
  - intros k. rewrite Hperm. apply Hrange.
  - apply Format_bytes_line.
Qed.

Lemma Format_walks_each_attribute_once_witness :
  length (Format_keys Sample.untimed_plain ["zone"; "app"]) = 2%nat
  ∧ @Format_bytes Example.env (init 0) Sample.untimed_plain
      (mkEntry (<["zone" := VString "eu"]> {["app" := VString "api"]}) 0
         InfoLevel "up" None)
      ["zone"; "app"]
    = "level=info msg=up app=api zone=eu " +:+ NL.
Proof.
  pose (d := <["zone" := VString "eu"]>
               ({["app" := VString "api"]} : Fields)).
  assert (range_order (prefixFieldClashes d) ["zone"; "app"]) as Hrange.
  { split.
    - compute_done.
    - intros k. rewrite <- elem_of_dom.
      assert (dom (prefixFieldClashes d) = list_to_set ["zone"; "app"]) as ->
        by compute_done.
      by rewrite elem_of_list_to_set. }
  destruct (@Format_walks_each_attribute_once Example.env (init 0)
              Sample.untimed_plain (mkEntry d 0 InfoLevel "up" None)
              ["zone"; "app"] Hrange)
    as (_ & Hlength & _ & Hline).
  split.
  - etrans; [exact Hlength|]. vm_compute. reflexivity.
  - etrans; [exact Hline|]. vm_compute. reflexivity.
Defined.

(** ** The end of a plain line *)

Lemma pairs_text_end (f : textFormatter) (data : Fields) (keys : list string) :
  keys ≠ [] → ∃ body, pairs_text f data keys = body +:+ " ".
Proof.
  induction keys as [|k keys IH]; [done|]. intros _. simpl.
  destruct keys as [|k' keys].
  - eexists (k +:+ "=" +:+ value_text f (index data k)).
    simpl. by rewrite !app_assoc, app_nil_r.
  - destruct IH as [body Hbody]; [done|]. rewrite Hbody.
    exists (k +:+ "=" +:+ value_text f (index data k) +:+ " " +:+ body).
    by rewrite !app_assoc.
Qed.

(** X4: every line of the plain layout ends with a space followed by the
    newline, whatever the event: the last pair written, be it the level, the
    message or an attribute, is followed by its space. *)
Theorem plain_line_ends_with_space_and_newline `{GoEnv} (g : Globals)
    (f : textFormatter) (entry : Entry) (ks : list string) :
  isColored f = false →
  ∃ body, Format_bytes g f entry ks = body +:+ " " +:+ NL.
Proof.
  intros Hplain. rewrite (Format_bytes_plain g f entry ks Hplain).
  set (head := default "" (Buffer entry)
               +:+ (if DisableTimestamp (settings f) then ""
                    else "time=" +:+ value_text f
                           (VString (Time_Format (Time_ entry)
                                       (TimestampFormat (settings f))))
                           +:+ " ")).
  set (pairs := pairs_text f (prefixFieldClashes (Data entry))
                  (Format_keys f ks)).
  destruct (decide (Format_keys f ks = [])) as [Hnil|Hkeys].
  - assert (pairs = "") as -> by (unfold pairs; by rewrite Hnil).
    destruct (Message entry =? "")%string.
    + exists (head +:+ "level="
              +:+ value_text f (VString (Level_String (Level_ entry)))).
      unfold head. by rewrite !app_assoc.
    + exists (head +:+ "level="
              +:+ value_text f (VString (Level_String (Level_ entry)))
              +:+ " " +:+ "msg="
              +:+ value_text f (VString (Message entry))).
      unfold head. by rewrite !app_assoc.
  - destruct (pairs_text_end f (prefixFieldClashes (Data entry)) _ Hkeys)
      as [body Hbody].
    fold pairs in Hbody. rewrite Hbody.
    exists (head +:+ "level="
            +:+ value_text f (VString (Level_String (Level_ entry))) +:+ " "
            +:+ (if (Message entry =? "")%string then ""
                 else "msg=" +:+ value_text f (VString (Message entry))
                        +:+ " ")
            +:+ body).
    unfold head. by rewrite !app_assoc.
Qed.

Lemma plain_line_ends_with_space_and_newline_witness :
  ∃ body,
    @Format_bytes Example.env (init 0) Example.plain
      (mkEntry {["pid" := VInt 123]} 0 InfoLevel "started" None) ["pid"]
    = body +:+ " " +:+ NL.
Proof.
  exact (@plain_line_ends_with_space_and_newline Example.env (init 0)
           Example.plain
           (mkEntry {["pid" := VInt 123]} 0 InfoLevel "started" None)
           ["pid"] eq_refl).
Defined.

(** ** Where the clock matters *)

(** X5: with timestamps disabled, the bytes depend neither on the event's
    timestamp nor on the start of the program, in both layouts. *)
Theorem untimed_line_ignores_the_clock `{GoEnv} (g g' : Globals)
    (f : textFormatter) (d : Fields) (t t' : Time) (l : Level) (m : string)
    (b : option string) (ks : list string) :
  DisableTimestamp (settings f) = true →
  Format_bytes g f (mkEntry d t l m b) ks
  = Format_bytes g' f (mkEntry d t' l m b) ks.
Proof.
  intros Hoff. destruct (isColored f) eqn:Hcol.
  - by rewrite !(Format_bytes_colored _ f _ ks Hcol), Hoff.
  - by rewrite !(Format_bytes_plain _ f _ ks Hcol), Hoff.
Qed.

Lemma untimed_line_ignores_the_clock_witness :
  @Format_bytes Example.env (init 0) Sample.untimed_colored
    (mkEntry ∅ 5 InfoLevel "up" None) []
  = @Format_bytes Example.env (init 7000000000) Sample.untimed_colored
      (mkEntry ∅ 99 InfoLevel "up" None) [].
Proof.
  exact (@untimed_line_ignores_the_clock Example.env (init 0)
           (init 7000000000) Sample.untimed_colored ∅ 5 99 InfoLevel "up" None
           [] eq_refl).
Defined.

(** X6: the start of the program ([baseTimestamp]) is read only by the
    colored layout with relative stamps: on the plain layout, with
    timestamps disabled or with full timestamps, the bytes do not depend on
    it. *)
Theorem baseTimestamp_matters_only_for_relative_stamps `{GoEnv}
    (g g' : Globals) (f : textFormatter) (entry : Entry) (ks : list string) :
  isColored f = false ∨ DisableTimestamp (settings f) = true
  ∨ FullTimestamp (settings f) = true →
  Format_bytes g f entry ks = Format_bytes g' f entry ks.
Proof.
  intros Hcase. destruct (isColored f) eqn:Hcol.
  - rewrite !(Format_bytes_colored _ f entry ks Hcol).
    destruct Hcase as [?|[-> | ->]]; [done|done|].
    by destruct (DisableTimestamp (settings f)).
  - by rewrite !(Format_bytes_plain _ f entry ks Hcol).
Qed.

Lemma baseTimestamp_matters_only_for_relative_stamps_witness :
  @Format_bytes Example.env (init 0) Example.plain
    (mkEntry ∅ 5 InfoLevel "up" None) []
  = @Format_bytes Example.env (init 7000000000) Example.plain
      (mkEntry ∅ 5 InfoLevel "up" None) [].
Proof.
  apply (@baseTimestamp_matters_only_for_relative_stamps Example.env).
  left. reflexivity.
Defined.

(** ** Relative stamps near the start of the program *)

Lemma elapsed_seconds_within_a_second (start t : Time) :
  - Second < t - start < Second → elapsed_seconds start t = 0.
Proof.
  unfold elapsed_seconds, Second. intros Hnear.
  rewrite Time_Sub_exact by (unfold minDuration, maxDuration; lia).
  apply Z.quot_small_iff; lia.
Qed.

(** X7: the relative stamp is truncated toward zero: an event stamped less
    than a second after, or before, the start of the program shows
    [0000]. *)
Theorem colored_stamp_rounds_toward_zero `{GoEnv} (start : Time)
    (f : textFormatter) (entry : Entry) (ks : list string) :
  isColored f = true →
  DisableTimestamp (settings f) = false →
  FullTimestamp (settings f) = false →
  - Second < Time_ entry - start < Second →
  Format_bytes (init start) f entry ks
  = default "" (Buffer entry) +:+ level_tag (Level_ entry)
      +:+ "[0000] " +:+ fmt_pad44 (Message entry) +:+ " "
      +:+ colored_pairs_text f (Level_ entry)
            (prefixFieldClashes (Data entry)) (Format_keys f ks)
      +:+ NL.
Proof.
  intros Hcol Hts Hfull Hnear.
  rewrite (Format_bytes_colored _ f entry ks Hcol), Hts, Hfull. simpl.
  rewrite elapsed_seconds_within_a_second by done.
  by rewrite !app_assoc.
Qed.

Lemma colored_stamp_rounds_toward_zero_witness :
  @Format_bytes Example.env (init 1000000000) Example.colored
    (mkEntry ∅ 100000001 InfoLevel "up" None) []
  = "" +:+ level_tag InfoLevel +:+ "[0000] " +:+ @fmt_pad44 Example.env "up"
      +:+ " " +:+ "" +:+ NL.
Proof.
  apply (@colored_stamp_rounds_toward_zero Example.env 1000000000
           Example.colored (mkEntry ∅ 100000001 InfoLevel "up" None) []);
    [reflexivity..|].
  split; reflexivity.
Defined.

(** ** Alignment of the colored layout *)

Lemma fmt_04d_width_negative (n : Z) :
  -999 ≤ n < 0 → String.length (fmt_04d n) = 4%nat.
Proof.
  intros Hn. unfold fmt_04d.
  destruct (Z.ltb_spec n 0) as [_|?]; [|lia].
  rewrite !app_length, replicate_byte_length. simpl.
  assert (String.length (pretty (Z.abs n)) ≤ 3)%nat; [|lia].
  destruct (Z.abs n) as [|p|p] eqn:Habs; [simpl; lia| |lia].
  unfold pretty, pretty_Z, pretty, pretty_positive, pretty, pretty_N.
  rewrite decide_False by done.
  apply (pretty_N_go_length 3 (N.pos p) ""). simpl. lia.
Qed.

Lemma level_tag_length (l : Level) : String.length (level_tag l) = 13%nat.
Proof. destruct l; vm_compute; reflexivity. Qed.

Lemma fmt_pad44_length `{GoEnv} (s : string) :
  RuneCountInString s = String.length s → (String.length s ≤ 44)%nat →
  String.length (fmt_pad44 s) = 44%nat.
Proof.
  intros Hrunes Hshort. unfold fmt_pad44.
  rewrite app_length, replicate_byte_length, Hrunes. lia.
Qed.

(** X8: the colored layout with relative stamps is aligned: with no
    caller's buffer, a stamp between -999 and 9999 seconds and a message of
    at most 44 one-byte runes, the attributes start at byte 65 of the line,
    whatever the level. *)
Theorem colored_attributes_start_at_a_fixed_column `{GoEnv} (start : Time)
    (f : textFormatter) (entry : Entry) (ks : list string) :
  isColored f = true →
  DisableTimestamp (settings f) = false →
  FullTimestamp (settings f) = false →
  Buffer entry = None →
  -999 ≤ elapsed_seconds start (Time_ entry) ≤ 9999 →
  RuneCountInString (Message entry) = String.length (Message entry) →
  (String.length (Message entry) ≤ 44)%nat →
  ∃ header,
    Format_bytes (init start) f entry ks
    = header
        +:+ colored_pairs_text f (Level_ entry)
              (prefixFieldClashes (Data entry)) (Format_keys f ks)
        +:+ NL
    ∧ String.length header = 65%nat.
Proof.
  intros Hcol Hts Hfull Hbuf Hsecs Hrunes Hshort.
  exists (level_tag (Level_ entry)
          +:+ "[" +:+ fmt_04d (elapsed_seconds start (Time_ entry)) +:+ "] "
          +:+ fmt_pad44 (Message entry) +:+ " ").
  split.
  - rewrite (Format_bytes_colored _ f entry ks Hcol), Hts, Hfull, Hbuf.
    simpl. by rewrite app_nil_l, !app_assoc.
  - assert (String.length (fmt_04d (elapsed_seconds start (Time_ entry)))
            = 4%nat) as Hwidth.
    { destruct (decide (0 ≤ elapsed_seconds start (Time_ entry))).
      - apply fmt_04d_width. lia.
      - apply fmt_04d_width_negative. lia. }
    rewrite !app_length, level_tag_length, Hwidth.
    rewrite fmt_pad44_length by done. reflexivity.
Qed.

Lemma colored_attributes_start_at_a_fixed_column_witness :
  ∃ header,
    @Format_bytes Example.env (init 0) Example.colored
      (mkEntry {["pid" := VInt 123]} 105000000000 WarnLevel "started" None)
      ["pid"]
    = header
        +:+ colored_pairs_text Example.colored WarnLevel
              (prefixFieldClashes {["pid" := VInt 123]})
              (Format_keys Example.colored ["pid"])
        +:+ NL
    ∧ String.length header = 65%nat.
Proof.
  assert (-999 ≤ elapsed_seconds 0 105000000000 ≤ 9999) as Hsecs
    by (by vm_compute).
  assert (String.length "started" ≤ 44)%nat as Hshort by (simpl; lia).
  exact (@colored_attributes_start_at_a_fixed_column Example.env 0
           Example.colored
           (mkEntry {["pid" := VInt 123]} 105000000000 WarnLevel "started"
              None) ["pid"] eq_refl eq_refl eq_refl eq_refl Hsecs eq_refl
           Hshort).
Defined.

(** ** Quoting does not escape *)

Lemma has_other_char_app (s t : string) :
  has_other_char (s +:+ t) = has_other_char s || has_other_char t.
Proof.
  induction s as [|c s IH]; [done|].
  rewrite app_cons. simpl. rewrite IH. by destruct (plain_char c).
Qed.

(** X9: quoting does not escape the quote character: a quoted value that
    holds the quote character, a space, a key, [=] and the quote character
    again is written as the bytes of two genuine pairs. *)
Theorem quoted_value_can_forge_a_pair (f : textFormatter)
    (b k1 k2 v1 v2 : string) :
  needsQuoting f v1 = true →
  needsQuoting f v2 = true →
  appendKeyValue f b k1
    (VString (v1 +:+ QuoteCharacter (settings f) +:+ " " +:+ k2 +:+ "="
                 +:+ QuoteCharacter (settings f) +:+ v2))
  = appendKeyValue f (appendKeyValue f b k1 (VString v1)) k2 (VString v2).
Proof.
  intros Hv1 Hv2. unfold appendKeyValue, appendValue.
  rewrite Hv1, Hv2. simpl.
  rewrite needsQuoting_other; [simpl; by rewrite !app_assoc|].
  rewrite !has_other_char_app. simpl. by rewrite !orb_true_r.
Qed.

Lemma quoted_value_can_forge_a_pair_witness :
  appendKeyValue Example.plain "" "user"
    (VString ("a b" +:+ DQUOTE +:+ " " +:+ "role" +:+ "=" +:+ DQUOTE
                    +:+ "site admin"))
  = appendKeyValue Example.plain
      (appendKeyValue Example.plain "" "user" (VString "a b"))
      "role" (VString "site admin").
Proof.
  exact (quoted_value_can_forge_a_pair Example.plain "" "user" "role" "a b"
           "site admin" eq_refl eq_refl).
Defined.

(** ** The other two headers of the colored layout *)

(** X16: on the colored layout with full timestamps, the bracket holds the
    timestamp rendered with the formatter's layout, unquoted, before the
    padded message. *)
Theorem colored_full_timestamp_layout `{GoEnv} (g : Globals)
    (f : textFormatter) (entry : Entry) (ks : list string) :
  isColored f = true →
  DisableTimestamp (settings f) = false →
  FullTimestamp (settings f) = true →
  Format_bytes g f entry ks
  = default "" (Buffer entry) +:+ level_tag (Level_ entry)
      +:+ "[" +:+ Time_Format (Time_ entry) (TimestampFormat (settings f))
      +:+ "] " +:+ fmt_pad44 (Message entry) +:+ " "
      +:+ colored_pairs_text f (Level_ entry)
            (prefixFieldClashes (Data entry)) (Format_keys f ks)
      +:+ NL.
Proof.
  intros Hcol Hts Hfull.
  rewrite (Format_bytes_colored g f entry ks Hcol), Hts, Hfull.
  by rewrite !app_assoc.
Qed.

Lemma colored_full_timestamp_layout_witness :
  @Format_bytes Example.env (init 0) Sample.full_colored
    (mkEntry ∅ 5 InfoLevel "up" None) []
  = "" +:+ level_tag InfoLevel +:+ "[" +:+ "2024-01-02T15:04:05Z" +:+ "] "
      +:+ @fmt_pad44 Example.env "up" +:+ " " +:+ "" +:+ NL.
Proof.
  exact (@colored_full_timestamp_layout Example.env (init 0)
           Sample.full_colored (mkEntry ∅ 5 InfoLevel "up" None) []
           eq_refl eq_refl eq_refl).
Defined.

(** X17: on the colored layout, disabling timestamps wins over full
    timestamps: no bracket is written; the level tag is followed by one
    space and the padded message. *)
Theorem colored_untimed_layout `{GoEnv} (g : Globals) (f : textFormatter)
    (entry : Entry) (ks : list string) :
  isColored f = true →
  DisableTimestamp (settings f) = true →
  Format_bytes g f entry ks
  = default "" (Buffer entry) +:+ level_tag (Level_ entry) +:+ " "
      +:+ fmt_pad44 (Message entry) +:+ " "
      +:+ colored_pairs_text f (Level_ entry)
            (prefixFieldClashes (Data entry)) (Format_keys f ks)
      +:+ NL.
Proof.
  intros Hcol Hoff.
  by rewrite (Format_bytes_colored g f entry ks Hcol), Hoff.
Qed.

Lemma colored_untimed_layout_witness :
  @Format_bytes Example.env (init 0) Sample.untimed_colored
    (mkEntry ∅ 5 InfoLevel "up" None) []
  = "" +:+ level_tag InfoLevel +:+ " " +:+ @fmt_pad44 Example.env "up"
      +:+ " " +:+ "" +:+ NL.
Proof.
  exact (@colored_untimed_layout Example.env (init 0) Sample.untimed_colored
           (mkEntry ∅ 5 InfoLevel "up" None) [] eq_refl eq_refl).
Defined.

(** ** An error prints as its text *)

Lemma value_text_error_text (f : textFormatter) (v : Value) :
  value_text f (JSON.error_text v) = value_text f v.
Proof. by destruct v. Qed.

Lemma index_error_text (data : Fields) (k : string) :
  index (JSON.error_text <$> data) k = JSON.error_text (index data k).
Proof. unfold index. rewrite lookup_fmap. by destruct (data !! k). Qed.

Lemma pairs_text_error_text (f : textFormatter) (data : Fields)
    (keys : list string) :
  pairs_text f (JSON.error_text <$> data) keys = pairs_text f data keys.
Proof.
  induction keys as [|k keys IH]; simpl; [done|].
  by rewrite IH, index_error_text, value_text_error_text.
Qed.

Lemma colored_pairs_text_error_text (f : textFormatter) (l : Level)
    (data : Fields) (keys : list string) :
  colored_pairs_text f l (JSON.error_text <$> data) keys
  = colored_pairs_text f l data keys.
Proof.
  induction keys as [|k keys IH]; simpl; [done|].
  by rewrite IH, index_error_text, value_text_error_text.
Qed.

(** X10: the text formatter writes an error like its text: an event whose
    error values are replaced by their texts yields the same bytes. *)
Theorem text_line_shows_errors_as_their_text `{GoEnv} (g : Globals)
    (f : textFormatter) (d : Fields) (t : Time) (l : Level) (m : string)
    (b : option string) (ks : list string) :
  Format_bytes g f (mkEntry (JSON.error_text <$> d) t l m b) ks
  = Format_bytes g f (mkEntry d t l m b) ks.
Proof.
  destruct (isColored f) eqn:Hcol.
  - rewrite !(Format_bytes_colored g f _ ks Hcol). simpl.
    by rewrite prefixFieldClashes_fmap, colored_pairs_text_error_text.
  - rewrite !(Format_bytes_plain g f _ ks Hcol). simpl.
    by rewrite prefixFieldClashes_fmap, pairs_text_error_text.
Qed.

(** ** One buffer shared by two calls *)

(** X11: a buffer shared by two calls accumulates: formatting a second event
    into the buffer the first call left returns the prior contents, then the
    first line, then the second line. *)
Theorem shared_buffer_accumulates_lines `{GoEnv} (g : Globals)
    (f : textFormatter) (e1 e2 : Entry) (ks1 ks2 : list string)
    (prior : string) :
  let after1 := (textFormatter_Format g f (with_Buffer e1 (Some prior)) ks1).1 in
  Format_bytes g f (with_Buffer e2 (Buffer after1)) ks2
  = prior +:+ Format_bytes g f (with_Buffer e1 None) ks1
      +:+ Format_bytes g f (with_Buffer e2 None) ks2.
Proof.
  intros after1.
  assert (∀ e ks p,
            Format_bytes g f (with_Buffer e (Some p)) ks
            = p +:+ Format_bytes g f (with_Buffer e None) ks) as Hframe.
  { intros e ks p. destruct (isColored f) eqn:Hcol.
    - rewrite !(Format_bytes_colored g f _ ks Hcol). simpl.
      by rewrite app_nil_l.
    - rewrite !(Format_bytes_plain g f _ ks Hcol). simpl.
      by rewrite app_nil_l. }
  assert (Buffer after1
          = Some (Format_bytes g f (with_Buffer e1 (Some prior)) ks1)) as ->
    by reflexivity.
  by rewrite !Hframe, app_assoc.
Qed.

(** ** The JSON formatter: what [Build] reads of the field map *)

(** X12: [Build] reads the field map at the time, level and msg keys only:
    an entry under any other key changes neither the formatter nor the
    error. *)
Theorem JSON_Build_ignores_other_field_keys `{GoEnv} (tf : string)
    (dt : bool) (fm : JSON.FieldMap) (k v : string) (out : Writer)
    (minimumLevel : Level) :
  k ≠ JSON.FieldKeyTime → k ≠ JSON.FieldKeyLevel → k ≠ JSON.FieldKeyMsg →
  JSON.Build (JSON.mkJSONFormatter tf dt (<[k := v]> fm)) out minimumLevel
  = JSON.Build (JSON.mkJSONFormatter tf dt fm) out minimumLevel.
Proof.
  intros Htime Hlevel Hmsg. unfold JSON.Build, JSON.resolve. simpl.
  by rewrite !lookup_insert_ne by done.
Qed.

Lemma JSON_Build_ignores_other_field_keys_witness :
  @JSON.Build Example.env
    (JSON.mkJSONFormatter "" false (<["host" := "@host"]> {["msg" := "message"]}))
    OtherWriter InfoLevel
  = @JSON.Build Example.env
      (JSON.mkJSONFormatter "" false {["msg" := "message"]}) OtherWriter
      InfoLevel.
Proof.
  apply (@JSON_Build_ignores_other_field_keys Example.env); discriminate.
Defined.

(** ** The JSON formatter: timestamps disabled *)

(** X13: with timestamps disabled the JSON formatter ignores the clock and
    the layout: two factories with timestamps disabled that resolve the
    level and msg keys alike, whatever their layouts and time keys, give the
    same result on events that differ in their timestamps and buffers
    only. *)
Theorem JSON_disabled_timestamp_ignores_clock_and_layout `{GoEnv}
    (factory factory' : JSON.JSONFormatter) (out out' : Writer)
    (lvl lvl' : Level) (d : Fields) (t t' : Time) (l : Level) (m : string)
    (b b' : option string) :
  JSON.DisableTimestamp factory = true →
  JSON.DisableTimestamp factory' = true →
  JSON.FieldMap_ factory !! JSON.FieldKeyLevel
  = JSON.FieldMap_ factory' !! JSON.FieldKeyLevel →
  JSON.FieldMap_ factory !! JSON.FieldKeyMsg
  = JSON.FieldMap_ factory' !! JSON.FieldKeyMsg →
  JSON.Format (JSON.Build factory out lvl).1 (mkEntry d t l m b)
  = JSON.Format (JSON.Build factory' out' lvl').1 (mkEntry d t' l m b').
Proof.
  intros Hoff Hoff' Hlevel Hmsg.
  unfold JSON.Format, JSON.Format_data, JSON.Build, JSON.resolve.
  rewrite Hoff, Hoff', Hlevel, Hmsg. reflexivity.
Qed.

Lemma JSON_disabled_timestamp_ignores_clock_and_layout_witness :
  @JSON.Format Example.env
    (@JSON.Build Example.env
       (JSON.mkJSONFormatter "" true {["time" := "@timestamp"]}) OtherWriter
       InfoLevel).1
    (mkEntry ∅ 5 InfoLevel "hello" None)
  = @JSON.Format Example.env
      (@JSON.Build Example.env (JSON.mkJSONFormatter "2006" true ∅)
         (OsFile 1) DebugLevel).1
      (mkEntry ∅ 99 InfoLevel "hello" (Some "x")).
Proof.
  apply (@JSON_disabled_timestamp_ignores_clock_and_layout Example.env);
    reflexivity.
Defined.

(** ** The JSON formatter: errors and later writes *)

Lemma error_text_idemp (v : Value) :
  JSON.error_text (JSON.error_text v) = JSON.error_text v.
Proof. by destruct v. Qed.

(** X14: the JSON formatter encodes an error as its text: an event whose
    error values are replaced by their texts yields the same result. *)
Theorem JSON_errors_encoded_as_their_text `{GoEnv} (f : JSON.jsonFormatter)
    (d : Fields) (t : Time) (l : Level) (m : string) (b : option string) :
  JSON.Format f (mkEntry (JSON.error_text <$> d) t l m b)
  = JSON.Format f (mkEntry d t l m b).
Proof.
  unfold JSON.Format, JSON.Format_data. simpl.
  assert (JSON.error_text <$> (JSON.error_text <$> d)
          = JSON.error_text <$> d) as ->; [|done].
  apply map_eq. intros k. rewrite !lookup_fmap.
  destruct (d !! k); simpl; [|done]. by rewrite error_text_idemp.
Qed.

(** X15: the level is written last: when the msg and level keys resolve to
    the same key, that key holds the level and the result does not depend on
    the message. *)
Theorem JSON_level_overwrites_message_under_one_key `{GoEnv}
    (f : JSON.jsonFormatter) (d : Fields) (t : Time) (l : Level)
    (m m' : string) (b : option string) :
  JSON.keyMsg f = JSON.keyLevel f →
  JSON.Format f (mkEntry d t l m b) = JSON.Format f (mkEntry d t l m' b)
  ∧ JSON.Format_data f (mkEntry d t l m b) !! JSON.keyMsg f
    = Some (VString (Level_String l)).
Proof.
  intros Hsame. unfold JSON.Format, JSON.Format_data. simpl.
  rewrite Hsame, !insert_insert_eq. split; [done|].
  apply lookup_insert_eq.
Qed.

Lemma JSON_level_overwrites_message_under_one_key_witness :
  @JSON.Format Example.env
    (@JSON.Build Example.env
       (JSON.mkJSONFormatter "" true {["msg" := "level"]}) OtherWriter
       InfoLevel).1
    (mkEntry ∅ 0 InfoLevel "hello" None)
  = @JSON.Format Example.env
      (@JSON.Build Example.env
         (JSON.mkJSONFormatter "" true {["msg" := "level"]}) OtherWriter
         InfoLevel).1
      (mkEntry ∅ 0 InfoLevel "bye" None).
Proof.
  exact (proj1 (@JSON_level_overwrites_message_under_one_key Example.env
                  (@JSON.Build Example.env
                     (JSON.mkJSONFormatter "" true {["msg" := "level"]})
                     OtherWriter InfoLevel).1
                  ∅ 0 InfoLevel "hello" "bye" None eq_refl)).
Defined.
